(** * FBref player-statistics pipeline: a shallow embedding of [main.py]

    The development follows the extraction and normalisation core of the
    program: the URL catalogue ([LeagueManager]), table extraction
    ([extract_tables]), header flattening ([format_dataframe_columns]),
    renaming and text cleaning ([formatear_datos]), position decomposition
    ([procesar_posiciones]), the column-wise merge of the per-category
    tables ([creacion_df_general_fbref], [creacion_df_porteros_fbref]) and
    the late numeric coercion ([convertir_columnas_numericas_*]).

    Text is modelled by [string]: a sequence of characters whose code
    points lie below 256, which covers every literal of the program.
    pandas data frames are modelled column-major, positionally indexed
    (every frame of the program carries a default [RangeIndex]). *)

From Stdlib Require Import List String Ascii Bool Arith ZArith Lia DecimalString.
Import ListNotations.
Open Scope list_scope.
Open Scope string_scope.

(* ================================================================== *)
(** * Python text operations *)
(* ================================================================== *)

(** The one-character string with code point [n]. *)
Definition chr (n : nat) : string := String (ascii_of_nat n) EmptyString.

(** [s[:n]] *)
Fixpoint slice_to (n : nat) (s : string) : string :=
  match n, s with
  | S n', String c s' => String c (slice_to n' s')
  | _, _ => EmptyString
  end.

(** [s[n:]] *)
Fixpoint slice_from (n : nat) (s : string) : string :=
  match n, s with
  | S n', String _ s' => slice_from n' s'
  | _, _ => s
  end.

(** [pat in s] for strings. *)
Fixpoint contains (pat s : string) : bool :=
  if prefix pat s then true
  else match s with
       | EmptyString => false
       | String _ s' => contains pat s'
       end.

Definition is_upper (c : ascii) : bool :=
  ((65 <=? nat_of_ascii c) && (nat_of_ascii c <=? 90))%nat.

Definition to_lower (c : ascii) : ascii :=
  if is_upper c then ascii_of_nat (nat_of_ascii c + 32) else c.

Fixpoint lower (s : string) : string :=
  match s with
  | EmptyString => EmptyString
  | String c s' => String (to_lower c) (lower s')
  end.

(** [Index.str.contains(pat, case=False)] for a pattern made of letters. *)
Definition contains_nocase (pat s : string) : bool :=
  contains (lower pat) (lower s).

(** [re.sub(c, by, s)] for a one-character pattern [c]. *)
Fixpoint re_sub_char (c : ascii) (by_ : string) (s : string) : string :=
  match s with
  | EmptyString => EmptyString
  | String d s' =>
      if Ascii.eqb d c then by_ ++ re_sub_char c by_ s'
      else String d (re_sub_char c by_ s')
  end.

(** [s.replace(' ', '-')] as used to build the URLs. *)
Definition replace_space_dash (s : string) : string :=
  re_sub_char " "%char "-" s.

(** [s.split(c)[0]]: the text before the first occurrence of [c]. *)
Fixpoint split_first (c : ascii) (s : string) : string :=
  match s with
  | EmptyString => EmptyString
  | String d s' => if Ascii.eqb d c then EmptyString else String d (split_first c s')
  end.

Definition newline : ascii := ascii_of_nat 10.

(** Characters for which Python's [str.isspace] holds (the class [\s] of
    [re] on text), among the code points below 256. *)
Definition is_space (c : ascii) : bool :=
  let n := nat_of_ascii c in
  (((9 <=? n) && (n <=? 13)) || ((28 <=? n) && (n <=? 32))
   || (n =? 133) || (n =? 160))%nat.

(** Truth value of [x.strip()]: some character is not white space. *)
Fixpoint strip_nonempty (s : string) : bool :=
  match s with
  | EmptyString => false
  | String c s' => negb (is_space c) || strip_nonempty s'
  end.

(** ** The pattern [([A-Z]+)$] of the nationality column *)

(** [$] without [re.MULTILINE]: the end of the text, or just before a
    line feed that ends the text. *)
Definition at_dollar (rest : string) : bool :=
  match rest with
  | EmptyString => true
  | String c EmptyString => Ascii.eqb c newline
  | _ => false
  end.

(** Length of the longest run of [[A-Z]] at the start of [s]. *)
Fixpoint upper_run (s : string) : nat :=
  match s with
  | String c s' => if is_upper c then S (upper_run s') else 0
  | EmptyString => 0
  end.

(** Greedy [[A-Z]+] followed by [$], giving back characters one at a time
    down to a single letter. *)
Fixpoint match_backtrack (k : nat) (s : string) : option string :=
  match k with
  | 0 => None
  | S k' =>
      if at_dollar (slice_from k s) then Some (slice_to k s)
      else match_backtrack k' s
  end.

Definition match_here (s : string) : option string :=
  match_backtrack (upper_run s) s.

(** [re.search(r'([A-Z]+)$', s)]: the leftmost start that matches; the
    result is group 1, [None] when there is no match. *)
Fixpoint search_upper_end (s : string) : option string :=
  match match_here s with
  | Some g => Some g
  | None =>
      match s with
      | EmptyString => None
      | String _ s' => search_upper_end s'
      end
  end.

(** ** The pattern [\s(.+)] of the competition column *)

(** Greedy [.+]: every character up to the next line feed. *)
Fixpoint dot_plus (s : string) : string :=
  match s with
  | EmptyString => EmptyString
  | String c s' => if Ascii.eqb c newline then EmptyString else String c (dot_plus s')
  end.

(** [re.search(r'\s(.+)', s)]: group 1 of the leftmost match. *)
Fixpoint search_space_rest (s : string) : option string :=
  match s with
  | EmptyString => None
  | String c s' =>
      if is_space c then
        match dot_plus s' with
        | EmptyString => search_space_rest s'
        | g => Some g
        end
      else search_space_rest s'
  end.

(* ================================================================== *)
(** * Dictionaries with text keys *)
(* ================================================================== *)

(** A Python [dict] literal, as the list of its items in source order. *)
Definition dict (V : Type) := list (string * V).

Fixpoint dict_get {V : Type} (d : dict V) (k : string) : option V :=
  match d with
  | [] => None
  | (k', v) :: d' => if String.eqb k k' then Some v else dict_get d' k
  end.

Definition dict_keys {V : Type} (d : dict V) : list string := map fst d.

(** Membership of a text in a list of texts ([x in xs]). *)
Definition mem (x : string) (xs : list string) : bool :=
  existsb (String.eqb x) xs.

(* ================================================================== *)
(** * Position decomposition ([procesar_posiciones], cell level) *)
(* ================================================================== *)

Definition mapping : dict string :=
  [ ("MF", "Midfielder");
    ("DF", "Defender");
    ("FW", "Forward");
    ("GK", "Goalkeeper") ].

(** [Series.replace(mapping)] on one value: a value equal to a key is
    replaced, any other value is kept. *)
Definition replace_value (d : dict string) (s : string) : string :=
  match dict_get d s with
  | Some v => v
  | None => s
  end.

(** [.str[:2].replace(mapping)] *)
Definition posicion_principal (codigo : string) : string :=
  replace_value mapping (slice_to 2 codigo).

(** [.str[3:].replace(mapping)] *)
Definition posicion_2 (codigo : string) : string :=
  replace_value mapping (slice_from 3 codigo).

(** The clean-up the analysis tab applies to the secondary position
    before display: [lambda x: x if x.strip() else 'No encontrado']
    (after [fillna('')]). *)
Definition no_encontrado : string := "No encontrado".

Definition limpiar_posicion_2 (x : string) : string :=
  if strip_nonempty x then x else no_encontrado.

(* ================================================================== *)
(** * Header flattening ([format_dataframe_columns], keys) *)
(* ================================================================== *)

(** [f"{col} ({stat_category})"] *)
Definition flat_key (stat_category col : string) : string :=
  col ++ " (" ++ stat_category ++ ")".

(** [f"{col[1]} ({col[0]} - {stat_category})"] *)
Definition multi_key (stat_category : string) (col : string * string) : string :=
  snd col ++ " (" ++ fst col ++ " - " ++ stat_category ++ ")".

(* ================================================================== *)
(** * The URL catalogue ([LeagueManager]) *)
(* ================================================================== *)

Record League : Type := mkLeague
  { id : string;              (* as rendered inside the URL *)
    slug : string;
    seasons : list string }.

Definition base_url : string := "https://fbref.com/en/comps/".

Definition last_five_seasons : list string :=
  ["2024-2025"; "2023-2024"; "2022-2023"; "2021-2022"; "2020-2021"].

Definition possible_leagues : dict League :=
  [ ("Premier League", mkLeague "9" "Premier-League" last_five_seasons);
    ("La Liga", mkLeague "12" "La-Liga" last_five_seasons);
    ("Ligue 1", mkLeague "13" "Ligue-1" last_five_seasons);
    ("Bundesliga", mkLeague "20" "Bundesliga" last_five_seasons);
    ("Serie A", mkLeague "11" "Serie-A" last_five_seasons);
    ("Big 5 European Leagues",
       mkLeague "Big5" "Big-5-European-Leagues" last_five_seasons) ].

Definition player_tables : dict string :=
  [ ("Standard Stats", "stats/players");
    ("Goalkeeping", "keepers/players");
    ("Advanced Goalkeeping", "keepersadv/players");
    ("Shooting", "shooting/players");
    ("Passing", "passing/players");
    ("Pass Types", "passing_types/players");
    ("Goal and Shot Creation", "gca/players");
    ("Defensive Actions", "defense/players");
    ("Possession", "possession/players");
    ("Playing Time", "playingtime/players");
    ("Miscellaneous Stats", "misc/players") ].

(** [f"{base_url}{league_id}/{path}/{season}/{league_name.replace(' ', '-')}-Stats"] *)
Definition player_url (league_name league_id path season : string) : string :=
  base_url ++ league_id ++ "/" ++ path ++ "/" ++ season ++ "/"
  ++ replace_space_dash league_name ++ "-Stats".

(** [{liga: {temporada: {tipo_estadistica: url}}}] *)
Definition generate_player_urls : dict (dict (dict string)) :=
  map (fun entry : string * League =>
         let (league_name, league_data) := entry in
         (league_name,
          map (fun season =>
                 (season,
                  map (fun tbl : string * string =>
                         let (stat_name, path) := tbl in
                         (stat_name,
                          player_url league_name (id league_data) path season))
                      player_tables))
              (seasons league_data)))
      possible_leagues.

Definition player_urls : dict (dict (dict string)) := generate_player_urls.

(** [scrape_stats_player]; [None] stands for the [KeyError] of an unknown
    league or statistic and the [ValueError] of an unknown season. *)
Definition scrape_stats_player (league season stat : string) : option string :=
  match dict_get player_urls league with
  | None => None
  | Some league_data =>
      match dict_get league_data season with
      | None => None
      | Some season_data => dict_get season_data stat
      end
  end.

Definition big5_league : string := "Big 5 European Leagues".

(** A check over the whole catalogue: no URL is empty, and no URL of a
    league other than the combined one contains ["Big5"]. *)
Definition catalogue_urls_checked : bool :=
  forallb (fun league : string * dict (dict string) =>
             forallb (fun season : string * dict string =>
                        forallb (fun stat : string * string =>
                                   negb (String.eqb (snd stat) "")
                                   && (String.eqb (fst league) big5_league
                                       || negb (contains "Big5" (snd stat))))
                                (snd season))
                     (snd league))
          player_urls.

(** The text [<div class="table_container"] looked for in comment nodes. *)
Definition table_container_marker : string :=
  "<div class=" ++ chr 34 ++ "table_container" ++ chr 34.

(** [get_league_info]: [dict.get], [None] for an unknown league. *)
Definition get_league_info (league_name : string) : option League :=
  dict_get possible_leagues league_name.

(** Every (league, season, statistic) of the catalogue with its URL. *)
Definition catalogue_entries : list ((string * string * string) * string) :=
  flat_map (fun league : string * dict (dict string) =>
    flat_map (fun season : string * dict string =>
      map (fun stat : string * string =>
             ((fst league, fst season, fst stat), snd stat))
          (snd season))
      (snd league))
    player_urls.

(** Are the texts of a list pairwise distinct? *)
Fixpoint distinct (xs : list string) : bool :=
  match xs with
  | [] => true
  | x :: xs' => negb (mem x xs') && distinct xs'
  end.

(** A check over the URLs of the combined league: each contains ["Big5"]. *)
Definition big5_urls_checked : bool :=
  forallb (fun entry : (string * string * string) * string =>
             negb (String.eqb (fst (fst (fst entry))) big5_league)
             || contains "Big5" (snd entry) && negb (String.eqb (snd entry) ""))
          catalogue_entries.


(* ================================================================== *)
(** * The renaming table of [formatear_datos] *)
(* ================================================================== *)

(** Accented letters of the Spanish display names, by code point. *)
Definition a_acute : string := chr 225.
Definition e_acute : string := chr 233.
Definition o_acute : string := chr 243.
Definition u_acute : string := chr 250.
Definition n_tilde : string := chr 241.

Definition mapeo_columns : dict string :=
  [
    ("Player (Unnamed: 1_level_0 - Standard Stats)",
       "Player");
    ("Nation (Unnamed: 2_level_0 - Standard Stats)",
       "Nacionalidad");
    ("Pos (Unnamed: 3_level_0 - Standard Stats)",
       "Posicion");
    ("Squad (Unnamed: 4_level_0 - Standard Stats)",
       "Equipo");
    ("Comp (Unnamed: 5_level_0 - Standard Stats)",
       "Competicion");
    ("Age (Unnamed: 6_level_0 - Standard Stats)",
       "Edad");
    ("Born (Unnamed: 7_level_0 - Standard Stats)",
       "Nacimiento");
    ("MP (Playing Time - Standard Stats)",
       "Partidos jugados");
    ("Starts (Playing Time - Standard Stats)",
       "Alineaciones");
    ("Min (Playing Time - Standard Stats)",
       "Minutos jugados");
    ("90s (Playing Time - Standard Stats)",
       "Minutos jugados/90");
    ("Gls (Performance - Standard Stats)",
       "Goles");
    ("Ast (Performance - Standard Stats)",
       "Asistencias");
    ("G+A (Performance - Standard Stats)",
       "Goles + Asistencias");
    ("G-PK (Performance - Standard Stats)",
       "Goles sin penaltis");
    ("PK (Performance - Standard Stats)",
       "Penalits creados");
    ("PKatt (Performance - Standard Stats)",
       "Penaltis intentados");
    ("CrdY (Performance - Standard Stats)",
       "Tarjetas amarillas");
    ("CrdR (Performance - Standard Stats)",
       "Tarjetas rojas");
    ("xG (Expected - Standard Stats)",
       "xG");
    ("npxG (Expected - Standard Stats)",
       "xG sin penaltis");
    ("xAG (Expected - Standard Stats)",
       "xAG");
    ("npxG+xAG (Expected - Standard Stats)",
       "xG + xAG sin penaltis");
    ("PrgC (Progression - Standard Stats)",
       "Acarreos progresivos");
    ("PrgP (Progression - Standard Stats)",
       "Pases progresivos");
    ("PrgR (Progression - Standard Stats)",
       "Pases recividos progresivos");
    ("Gls (Per 90 Minutes - Standard Stats)",
       "Goles/90");
    ("Ast (Per 90 Minutes - Standard Stats)",
       " Asistencias/90");
    ("G+A (Per 90 Minutes - Standard Stats)",
       "Goles + Asistencias/90");
    ("G-PK (Per 90 Minutes - Standard Stats)",
       "Goles sin penaltis/90");
    ("G+A-PK (Per 90 Minutes - Standard Stats)",
       "Goles + Asistencias sin penaltis/90");
    ("xG (Per 90 Minutes - Standard Stats)",
       "xG/90");
    ("xAG (Per 90 Minutes - Standard Stats)",
       "xAG/90");
    ("xG+xAG (Per 90 Minutes - Standard Stats)",
       "xG+xAG/90");
    ("npxG (Per 90 Minutes - Standard Stats)",
       "xG sin penaltis/90");
    ("npxG+xAG (Per 90 Minutes - Standard Stats)",
       "xG + xAG sin penalits/90");
    ("Player (Unnamed: 1_level_0 - Shooting)",
       "Player");
    ("Nation (Unnamed: 2_level_0 - Shooting)",
       "Nacionalidad");
    ("Pos (Unnamed: 3_level_0 - Shooting)",
       "Posicion");
    ("Squad (Unnamed: 4_level_0 - Shooting)",
       "Equipo");
    ("Comp (Unnamed: 5_level_0 - Shooting)",
       "Competicion");
    ("Age (Unnamed: 6_level_0 - Shooting)",
       "Edad");
    ("Born (Unnamed: 7_level_0 - Shooting)",
       "A" ++ n_tilde ++ "o");
    ("90s (Unnamed: 8_level_0 - Shooting)",
       "Minutos jugados/90");
    ("Gls (Standard - Shooting)",
       "Goles");
    ("Sh (Standard - Shooting)",
       "Tiros totales");
    ("SoT (Standard - Shooting)",
       "Tiros a puerta");
    ("SoT% (Standard - Shooting)",
       "% Tiros a puerta");
    ("Sh/90 (Standard - Shooting)",
       "Tiros totales/90");
    ("SoT/90 (Standard - Shooting)",
       "Tiros a puerta/90");
    ("G/Sh (Standard - Shooting)",
       "Goles/Tiros totales");
    ("G/SoT (Standard - Shooting)",
       "Goles/Tiros a puerta");
    ("Dist (Standard - Shooting)",
       "Distancia promedio tiros");
    ("FK (Standard - Shooting)",
       "Tiros libres");
    ("PK (Standard - Shooting)",
       "Penaltis anotados");
    ("PKatt (Standard - Shooting)",
       "Penaltis intentados");
    ("xG (Expected - Shooting)",
       "xG");
    ("npxG (Expected - Shooting)",
       "xG sin penaltis");
    ("npxG/Sh (Expected - Shooting)",
       "xG sin penaltis/Tiros totales");
    ("G-xG (Expected - Shooting)",
       "Goles-xG");
    ("np:G-xG (Expected - Shooting)",
       "Goles sin penaltis/xG");
    ("Player (Unnamed: 1_level_0 - Passing)",
       "Player");
    ("Nation (Unnamed: 2_level_0 - Passing)",
       "Nacionalidad");
    ("Pos (Unnamed: 3_level_0 - Passing)",
       "Posicion");
    ("Squad (Unnamed: 4_level_0 - Passing)",
       "Equipo");
    ("Comp (Unnamed: 5_level_0 - Passing)",
       "Competicion");
    ("Age (Unnamed: 6_level_0 - Passing)",
       "Edad");
    ("Born (Unnamed: 7_level_0 - Passing)",
       "A" ++ n_tilde ++ "o");
    ("90s (Unnamed: 8_level_0 - Passing)",
       "Minutos jugados/90");
    ("Cmp (Total - Passing)",
       "Pases completados");
    ("Att (Total - Passing)",
       "Pases intentados");
    ("Cmp% (Total - Passing)",
       "% Pases completados");
    ("TotDist (Total - Passing)",
       "Distancia total pases");
    ("PrgDist (Total - Passing)",
       "Distancia pases progresivos");
    ("Cmp (Short - Passing)",
       "Pases cortos completados");
    ("Att (Short - Passing)",
       "Pases cortos intentados");
    ("Cmp% (Short - Passing)",
       "% pases cortos completados");
    ("Cmp (Medium - Passing)",
       "Pases medios completados");
    ("Att (Medium - Passing)",
       "Pases medios intentados");
    ("Cmp% (Medium - Passing)",
       "% pases medios completados");
    ("Cmp (Long - Passing)",
       "Pases largos completados");
    ("Att (Long - Passing)",
       "Pases largos intentados");
    ("Cmp% (Long - Passing)",
       "% pases largos completados");
    ("Ast (Unnamed: 23_level_0 - Passing)",
       "Asistencias");
    ("xAG (Unnamed: 24_level_0 - Passing)",
       "xAG");
    ("xA (Expected - Passing)",
       "xA");
    ("A-xAG (Expected - Passing)",
       "Asistencias-xAG");
    ("KP (Unnamed: 27_level_0 - Passing)",
       "Pases clave");
    ("1/3 (Unnamed: 28_level_0 - Passing)",
       "Pases " ++ u_acute ++ "ltimo tercio campo");
    ("PPA (Unnamed: 29_level_0 - Passing)",
       "Pases " ++ a_acute ++ "rea de penalti");
    ("CrsPA (Unnamed: 30_level_0 - Passing)",
       "Centros " ++ a_acute ++ "rea de penalti");
    ("PrgP (Unnamed: 31_level_0 - Passing)",
       "Pases progresivos");
    ("Player (Unnamed: 1_level_0 - Pass Types)",
       "Player");
    ("Nation (Unnamed: 2_level_0 - Pass Types)",
       "Nacionalidad");
    ("Pos (Unnamed: 3_level_0 - Pass Types)",
       "Posicion");
    ("Squad (Unnamed: 4_level_0 - Pass Types)",
       "Equipo");
    ("Comp (Unnamed: 5_level_0 - Pass Types)",
       "Competicion");
    ("Age (Unnamed: 6_level_0 - Pass Types)",
       "Edad");
    ("Born (Unnamed: 7_level_0 - Pass Types)",
       "A" ++ n_tilde ++ "o");
    ("90s (Unnamed: 8_level_0 - Pass Types)",
       "Minutos jugados/90");
    ("Att (Unnamed: 9_level_0 - Pass Types)",
       "Pases intentados");
    ("Live (Pass Types - Pass Types)",
       "Pases bal" ++ o_acute ++ "n vivo");
    ("Dead (Pass Types - Pass Types)",
       "Pases bal" ++ o_acute ++ "n muerto");
    ("FK (Pass Types - Pass Types)",
       "Pases de tiros libres");
    ("TB (Pass Types - Pass Types)",
       "Pases largos");
    ("Sw (Pass Types - Pass Types)",
       "Cambios de juego (pases)");
    ("Crs (Pass Types - Pass Types)",
       "Pases cruzados");
    ("TI (Pass Types - Pass Types)",
       "Saques de banda");
    ("CK (Pass Types - Pass Types)",
       "Saques esquina");
    ("In (Corner Kicks - Pass Types)",
       "Saques esquina hacia dentro");
    ("Out (Corner Kicks - Pass Types)",
       "Saques de esquina hacia fuera");
    ("Str (Corner Kicks - Pass Types)",
       "Saques de esquina rectos");
    ("Cmp (Outcomes - Pass Types)",
       "Pases completados");
    ("Off (Outcomes - Pass Types)",
       "Pases fuera de juego");
    ("Blocks (Outcomes - Pass Types)",
       "Pases bloqueados");
    ("Player (Unnamed: 1_level_0 - Goal and Shot Creation)",
       "Player");
    ("Nation (Unnamed: 2_level_0 - Goal and Shot Creation)",
       "Nacionalidad");
    ("Pos (Unnamed: 3_level_0 - Goal and Shot Creation)",
       "Posicion");
    ("Squad (Unnamed: 4_level_0 - Goal and Shot Creation)",
       "Equipo");
    ("Comp (Unnamed: 5_level_0 - Goal and Shot Creation)",
       "Competicion");
    ("Age (Unnamed: 6_level_0 - Goal and Shot Creation)",
       "Edad");
    ("Born (Unnamed: 7_level_0 - Goal and Shot Creation)",
       "A" ++ n_tilde ++ "o");
    ("90s (Unnamed: 8_level_0 - Goal and Shot Creation)",
       "Minutos jugados/90");
    ("SCA (SCA - Goal and Shot Creation)",
       "Acciones creadores de tiros");
    ("SCA90 (SCA - Goal and Shot Creation)",
       "Acciones creadores de tiros/90");
    ("PassLive (SCA Types - Goal and Shot Creation)",
       "SCA (Pases de bal" ++ o_acute ++ "n vivo)");
    ("PassDead (SCA Types - Goal and Shot Creation)",
       "SCA (Pases de bal" ++ o_acute ++ "n muerto)");
    ("TO (SCA Types - Goal and Shot Creation)",
       "SCA (Toma)");
    ("Sh (SCA Types - Goal and Shot Creation)",
       "SCA (Tiros)");
    ("Fld (SCA Types - Goal and Shot Creation)",
       "SCA (Faltas recibidas)");
    ("Def (SCA Types - Goal and Shot Creation)",
       "SCA (Acci" ++ o_acute ++ "n defensiva)");
    ("GCA (GCA - Goal and Shot Creation)",
       "Acciones creadores de goles");
    ("GCA90 (GCA - Goal and Shot Creation)",
       "Acciones creadores de goles/90");
    ("PassLive (GCA Types - Goal and Shot Creation)",
       "GCA (Pases de bal" ++ o_acute ++ "n vivos)");
    ("PassDead (GCA Types - Goal and Shot Creation)",
       "GCA (Pases de bal" ++ o_acute ++ "n muerto)");
    ("TO (GCA Types - Goal and Shot Creation)",
       "GCA (Toma)");
    ("Sh (GCA Types - Goal and Shot Creation)",
       "GCA (Tiros)");
    ("Fld (GCA Types - Goal and Shot Creation)",
       "GCA (Faltas recibidas)");
    ("Def (GCA Types - Goal and Shot Creation)",
       "GCA (Acci" ++ o_acute ++ "n defensiva)");
    ("Player (Unnamed: 1_level_0 - Defensive Actions)",
       "Player");
    ("Nation (Unnamed: 2_level_0 - Defensive Actions)",
       "Nacionalidad");
    ("Pos (Unnamed: 3_level_0 - Defensive Actions)",
       "Posicion");
    ("Squad (Unnamed: 4_level_0 - Defensive Actions)",
       "Equipo");
    ("Comp (Unnamed: 5_level_0 - Defensive Actions)",
       "Competicion");
    ("Age (Unnamed: 6_level_0 - Defensive Actions)",
       "Edad");
    ("Born (Unnamed: 7_level_0 - Defensive Actions)",
       "A" ++ n_tilde ++ "o");
    ("90s (Unnamed: 8_level_0 - Defensive Actions)",
       "Minutos jugados/90");
    ("Tkl (Tackles - Defensive Actions)",
       "Derribos");
    ("TklW (Tackles - Defensive Actions)",
       "Derribos ganados");
    ("Def 3rd (Tackles - Defensive Actions)",
       "Derribos (Def 3rd)");
    ("Mid 3rd (Tackles - Defensive Actions)",
       "Derribos (Mid 3rd)");
    ("Att 3rd (Tackles - Defensive Actions)",
       "Derribos (Att 3rd)");
    ("Tkl (Challenges - Defensive Actions)",
       "Regateadores tackleados");
    ("Att (Challenges - Defensive Actions)",
       "Regateos intentados");
    ("Tkl% (Challenges - Defensive Actions)",
       "% Dribladorees derribados");
    ("Lost (Challenges - Defensive Actions)",
       "Desafios perdidos");
    ("Blocks (Blocks - Defensive Actions)",
       "Bloqueos");
    ("Sh (Blocks - Defensive Actions)",
       "Tiros bloqueados");
    ("Pass (Blocks - Defensive Actions)",
       "Pases bloqueados");
    ("Int (Unnamed: 21_level_0 - Defensive Actions)",
       "Intercepciones");
    ("Tkl+Int (Unnamed: 22_level_0 - Defensive Actions)",
       "Derribos + Intercepciones");
    ("Clr (Unnamed: 23_level_0 - Defensive Actions)",
       "Despejes");
    ("Err (Unnamed: 24_level_0 - Defensive Actions)",
       "Errores defensivos");
    ("Player (Unnamed: 1_level_0 - Possession)",
       "Player");
    ("Nation (Unnamed: 2_level_0 - Possession)",
       "Nacionalidad");
    ("Pos (Unnamed: 3_level_0 - Possession)",
       "Posicion");
    ("Squad (Unnamed: 4_level_0 - Possession)",
       "Equipo");
    ("Comp (Unnamed: 5_level_0 - Possession)",
       "Competicion");
    ("Age (Unnamed: 6_level_0 - Possession)",
       "Edad");
    ("Born (Unnamed: 7_level_0 - Possession)",
       "A" ++ n_tilde ++ "o");
    ("90s (Unnamed: 8_level_0 - Possession)",
       "Minutos jugados/90");
    ("Touches (Touches - Possession)",
       "Toques");
    ("Def Pen (Touches - Possession)",
       "Toques (Def pen)");
    ("Def 3rd (Touches - Possession)",
       "Toques (Def 3rd)");
    ("Mid 3rd (Touches - Possession)",
       "Toques (Mid 3rd)");
    ("Att 3rd (Touches - Possession)",
       "Toques (Att 3rd)");
    ("Att Pen (Touches - Possession)",
       "Toques (Att pen)");
    ("Live (Touches - Possession)",
       "Toques (Pelota activa)");
    ("Att (Take-Ons - Possession)",
       "Tomas Intentados");
    ("Succ (Take-Ons - Possession)",
       "Tomas exitosas");
    ("Succ% (Take-Ons - Possession)",
       "% Tomas exitosas");
    ("Tkld (Take-Ons - Possession)",
       "Veces regateos");
    ("Tkld% (Take-Ons - Possession)",
       "% veces regateos");
    ("Carries (Carries - Possession)",
       "Total de transportes bal" ++ o_acute ++ "n");
    ("TotDist (Carries - Possession)",
       "Distancia total trasporte bal" ++ o_acute ++ "n");
    ("PrgDist (Carries - Possession)",
       "Distancia trasporte bal" ++ o_acute ++ "n progresivo");
    ("PrgC (Carries - Possession)",
       "Acarreos progresivos");
    ("1/3 (Carries - Possession)",
       "Transporte bal" ++ o_acute ++ "n " ++ u_acute ++ "ltimo tercio");
    ("CPA (Carries - Possession)",
       "Transporte bal" ++ o_acute ++ "n area penalti");
    ("Mis (Carries - Possession)",
       "Errores de control bal" ++ o_acute ++ "n");
    ("Dis (Carries - Possession)",
       "Desposeido del bal" ++ o_acute ++ "n");
    ("Rec (Receiving - Possession)",
       "Pases recibidos");
    ("PrgR (Receiving - Possession)",
       "Pases progresivos recibidos");
    ("Player (Unnamed: 1_level_0 - Miscellaneous Stats)",
       "Player");
    ("Nation (Unnamed: 2_level_0 - Miscellaneous Stats)",
       "Nacionalidad");
    ("Pos (Unnamed: 3_level_0 - Miscellaneous Stats)",
       "Posicion");
    ("Squad (Unnamed: 4_level_0 - Miscellaneous Stats)",
       "Equipo");
    ("Comp (Unnamed: 5_level_0 - Miscellaneous Stats)",
       "Competicion");
    ("Age (Unnamed: 6_level_0 - Miscellaneous Stats)",
       "Edad");
    ("Born (Unnamed: 7_level_0 - Miscellaneous Stats)",
       "A" ++ n_tilde ++ "o");
    ("90s (Unnamed: 8_level_0 - Miscellaneous Stats)",
       "Minutos jugados/90");
    ("CrdY (Performance - Miscellaneous Stats)",
       "Tarjetas amarillas");
    ("CrdR (Performance - Miscellaneous Stats)",
       "Tarjetas rojas");
    ("2CrdY (Performance - Miscellaneous Stats)",
       "Segunda tarjeta amarilla");
    ("Fls (Performance - Miscellaneous Stats)",
       "Faltas cometidas");
    ("Fld (Performance - Miscellaneous Stats)",
       "Faltas recibidas");
    ("Off (Performance - Miscellaneous Stats)",
       "Posicion adelantada (fuera de juego)");
    ("Crs (Performance - Miscellaneous Stats)",
       "Pases cruzados");
    ("Int (Performance - Miscellaneous Stats)",
       "Intercepciones");
    ("TklW (Performance - Miscellaneous Stats)",
       "Derribos ganados");
    ("PKwon (Performance - Miscellaneous Stats)",
       "Penaltis ejecutados");
    ("PKcon (Performance - Miscellaneous Stats)",
       "Penaltis concedidos");
    ("OG (Performance - Miscellaneous Stats)",
       "Goles en propia");
    ("Recov (Performance - Miscellaneous Stats)",
       "Recuperaciones");
    ("Won (Aerial Duels - Miscellaneous Stats)",
       "Duelos a" ++ e_acute ++ "reos ganados");
    ("Lost (Aerial Duels - Miscellaneous Stats)",
       "Duelos a" ++ e_acute ++ "reos perdidos");
    ("Won% (Aerial Duels - Miscellaneous Stats)",
       "% Duelos a" ++ e_acute ++ "reos ganados");
    ("Player (Unnamed: 1_level_0 - Playing Time)",
       "Player");
    ("Nation (Unnamed: 2_level_0 - Playing Time)",
       "Nacionalidad");
    ("Pos (Unnamed: 3_level_0 - Playing Time)",
       "Posicion");
    ("Squad (Unnamed: 4_level_0 - Playing Time)",
       "Equipo");
    ("Comp (Unnamed: 5_level_0 - Playing Time)",
       "Competicion");
    ("Age (Unnamed: 6_level_0 - Playing Time)",
       "Edad");
    ("Born (Unnamed: 7_level_0 - Playing Time)",
       "A" ++ n_tilde ++ "o");
    ("MP (Playing Time - Playing Time)",
       "Partidos jugados");
    ("Min (Playing Time - Playing Time)",
       "Minutos jugados");
    ("Mn/MP (Playing Time - Playing Time)",
       "Minutos jugados/Partidos jugados");
    ("Min% (Playing Time - Playing Time)",
       "% Minutos jugados");
    ("90s (Playing Time - Playing Time)",
       "Minutos jugados/90");
    ("Starts (Starts - Playing Time)",
       "Alineaciones");
    ("Mn/Start (Starts - Playing Time)",
       "Minutos jugados/Alineaciones");
    ("Compl (Starts - Playing Time)",
       "Partidos completos");
    ("Subs (Subs - Playing Time)",
       "Partidos suplente");
    ("Mn/Sub (Subs - Playing Time)",
       "Minutos jugados/Partidos suplente");
    ("unSub (Subs - Playing Time)",
       "Partidos suplente pero no sale");
    ("PPM (Team Success - Playing Time)",
       "Puntos por partido aportado al equipo");
    ("onG (Team Success - Playing Time)",
       "Goles marcados equipo en " ++ e_acute ++ "l");
    ("onGA (Team Success - Playing Time)",
       "Goles permitidos equipo con " ++ e_acute ++ "l");
    ("+/- (Team Success - Playing Time)",
       "Goles marcados-Goles permitidos equipo en " ++ e_acute ++ "l");
    ("+/-90 (Team Success - Playing Time)",
       "Goles marcados-Goles permitidos equipo en " ++ e_acute ++ "l/90");
    ("On-Off (Team Success - Playing Time)",
       "Goles neto/90 jugador dentro-fuera campo");
    ("onxG (Team Success (xG) - Playing Time)",
       "xG marcados equipo en " ++ e_acute ++ "l");
    ("onxGA (Team Success (xG) - Playing Time)",
       "xGA marcados equipo en " ++ e_acute ++ "l");
    ("xG+/- (Team Success (xG) - Playing Time)",
       "xG marcados-xGA permitidos equipo en " ++ e_acute ++ "l");
    ("xG+/-90 (Team Success (xG) - Playing Time)",
       "xG marcados-xGA permitidos equipo en " ++ e_acute ++ "l");
    ("On-Off (Team Success (xG) - Playing Time)",
       "xG neto/90 jugador dentro-fuera campo");
    ("Player (Unnamed: 1_level_0 - Goalkeeping)",
       "Player");
    ("Nation (Unnamed: 2_level_0 - Goalkeeping)",
       "Nacionalidad");
    ("Pos (Unnamed: 3_level_0 - Goalkeeping)",
       "Posicion");
    ("Squad (Unnamed: 4_level_0 - Goalkeeping)",
       "Equipo");
    ("Comp (Unnamed: 5_level_0 - Goalkeeping)",
       "Competicion");
    ("Age (Unnamed: 6_level_0 - Goalkeeping)",
       "Edad");
    ("Born (Unnamed: 7_level_0 - Goalkeeping)",
       "A" ++ n_tilde ++ "o");
    ("MP (Playing Time - Goalkeeping)",
       "Partidos jugados");
    ("Starts (Playing Time - Goalkeeping)",
       "Alineaciones");
    ("Min (Playing Time - Goalkeeping)",
       "Minutos jugados");
    ("90s (Unnamed: 11_level_0 - Goalkeeping)",
       "Minutos jugados/90");
    ("GA (Performance - Goalkeeping)",
       "Goles encajados");
    ("GA90 (Performance - Goalkeeping)",
       "Goles ecajados/90");
    ("SoTA (Performance - Goalkeeping)",
       "Tiros puerta recibidos");
    ("Saves (Performance - Goalkeeping)",
       "Paradas");
    ("Save% (Performance - Goalkeeping)",
       "% Paradas");
    ("W (Performance - Goalkeeping)",
       "Partidos ganados");
    ("D (Performance - Goalkeeping)",
       "Partidos empatados");
    ("L (Performance - Goalkeeping)",
       "Partidos perdidos");
    ("CS (Performance - Goalkeeping)",
       "Porteria a cero");
    ("CS% (Performance - Goalkeeping)",
       "% Porteria a cero");
    ("PKatt (Penalty Kicks - Goalkeeping)",
       "Pentaltis provocados");
    ("PKA (Penalty Kicks - Goalkeeping)",
       "Penalti encajado");
    ("PKsv (Penalty Kicks - Goalkeeping)",
       "Penaltis parados");
    ("PKm (Penalty Kicks - Goalkeeping)",
       "Penaltis fallados");
    ("Save% (Penalty Kicks - Goalkeeping)",
       "% Penaltis parados");
    ("Player (Unnamed: 1_level_0 - Advanced Goalkeeping)",
       "Player");
    ("Nation (Unnamed: 2_level_0 - Advanced Goalkeeping)",
       "Nacionalidad");
    ("Pos (Unnamed: 3_level_0 - Advanced Goalkeeping)",
       "Posicion");
    ("Squad (Unnamed: 4_level_0 - Advanced Goalkeeping)",
       "Equipo");
    ("Comp (Unnamed: 5_level_0 - Advanced Goalkeeping)",
       "Competicion");
    ("Age (Unnamed: 6_level_0 - Advanced Goalkeeping)",
       "Edad");
    ("Born (Unnamed: 7_level_0 - Advanced Goalkeeping)",
       "A" ++ n_tilde ++ "o");
    ("90s (Unnamed: 8_level_0 - Advanced Goalkeeping)",
       "Minutos jugados/90");
    ("GA (Goals - Advanced Goalkeeping)",
       "Goles encajados");
    ("PKA (Goals - Advanced Goalkeeping)",
       "Penaltis encajados");
    ("FK (Goals - Advanced Goalkeeping)",
       "Tiros libres encajados");
    ("CK (Goals - Advanced Goalkeeping)",
       "Corners encajados");
    ("OG (Goals - Advanced Goalkeeping)",
       "Goles propia meta");
    ("PSxG (Expected - Advanced Goalkeeping)",
       "xGOT recibido");
    ("PSxG/SoT (Expected - Advanced Goalkeeping)",
       "xGOT recibido/Tiro a puerta");
    ("PSxG+/- (Expected - Advanced Goalkeeping)",
       "xGOT recibido-Goles encajados");
    ("/90 (Expected - Advanced Goalkeeping)",
       "xGOT recibido-Goles encajados/90");
    ("Cmp (Launched - Advanced Goalkeeping)",
       "Pases largos");
    ("Att (Launched - Advanced Goalkeeping)",
       "Pases largos exito");
    ("Cmp% (Launched - Advanced Goalkeeping)",
       "% Pases largos exito");
    ("Att (GK) (Passes - Advanced Goalkeeping)",
       "Pases de portero ");
    ("Thr (Passes - Advanced Goalkeeping)",
       "Lanzamientos");
    ("Launch% (Passes - Advanced Goalkeeping)",
       "% pases portero completados");
    ("AvgLen (Passes - Advanced Goalkeeping)",
       "Promedio distancia pases");
    ("Att (Goal Kicks - Advanced Goalkeeping)",
       "Tiros de puerta");
    ("Launch% (Goal Kicks - Advanced Goalkeeping)",
       "% Tiros puerta completados");
    ("AvgLen (Goal Kicks - Advanced Goalkeeping)",
       "Promedio distancia tiros puerta");
    ("Opp (Crosses - Advanced Goalkeeping)",
       "Centros oponentes intentados");
    ("Stp (Crosses - Advanced Goalkeeping)",
       "Centros detenidos");
    ("Stp% (Crosses - Advanced Goalkeeping)",
       "% Centros detenidos");
    ("#OPA (Sweeper - Advanced Goalkeeping)",
       "Acciones defensivas fuera area penalti");
    ("#OPA/90 (Sweeper - Advanced Goalkeeping)",
       "Acciones defensivas fuera area penalti/90");
    ("AvgDist (Sweeper - Advanced Goalkeeping)",
       "Promedio de distancia Acc. def. fuera area penalti") ].

(* ================================================================== *)
(** * Reading a flattened key back *)
(* ================================================================== *)

(** The characters the two-level key format writes between its parts. *)
Definition is_delimiter (c : ascii) : bool :=
  Ascii.eqb c " "%char || Ascii.eqb c "("%char
  || Ascii.eqb c "-"%char || Ascii.eqb c ")"%char.

Fixpoint delimiter_free (s : string) : bool :=
  match s with
  | EmptyString => true
  | String c s' => negb (is_delimiter c) && delimiter_free s'
  end.

(** Does the character [c] occur in [s]? *)
Fixpoint occurs (c : ascii) (s : string) : bool :=
  match s with
  | EmptyString => false
  | String d s' => Ascii.eqb d c || occurs c s'
  end.

(** The text after the first occurrence of [c]. *)
Fixpoint after_first (c : ascii) (s : string) : string :=
  match s with
  | EmptyString => EmptyString
  | String d s' => if Ascii.eqb d c then s' else after_first c s'
  end.

(** [s[:-1]] *)
Fixpoint drop_last (s : string) : string :=
  match s with
  | EmptyString => EmptyString
  | String _ EmptyString => EmptyString
  | String c s' => String c (drop_last s')
  end.

(** Modelled from the spec: the program has no function that reads a
    generated key back; the spec's re-derivation of (group, field) from
    ["<field-label> (<group-label> - <categoryTag>)"] is taken to split the
    key at its first opening parenthesis, then at the first dash that
    follows, dropping the blank written before each. *)
Definition rederive_key (key : string) : string * string :=
  let field := drop_last (split_first "("%char key) in
  let rest := after_first "("%char key in
  let group := drop_last (split_first "-"%char rest) in
  (group, field).

(** Does [s] end with a letter of [[A-Z]]? *)
Fixpoint ends_upper (s : string) : bool :=
  match s with
  | EmptyString => false
  | String c EmptyString => is_upper c
  | String _ s' => ends_upper s'
  end.

Fixpoint all_upper (s : string) : bool :=
  match s with
  | EmptyString => true
  | String c s' => is_upper c && all_upper s'
  end.

Definition line_feed : string := String newline EmptyString.

(* ================================================================== *)
(** * Data frames *)
(* ================================================================== *)

(** A cell: a text, a number, or one of the two missing values of
    pandas, the floating-point [NaN] and Python's [None] ([Null]). The
    numeric scalars [num] are those of pandas. *)
Inductive cell (num : Type) : Type :=
  | Text (s : string)
  | Num (n : num)
  | NaN
  | Null.

Arguments Text {num} s.
Arguments Num {num} n.
Arguments NaN {num}.
Arguments Null {num}.

(** A frame stores its columns in order, each with its label; rows are
    addressed by position [0 .. nrows-1]. *)
Record Frame (num L : Type) : Type := mkFrame
  { nrows : nat;
    cols : list (L * list (cell num)) }.

Arguments mkFrame {num L} nrows cols.
Arguments nrows {num L} _.
Arguments cols {num L} _.

Definition DataFrame (num : Type) : Type := Frame num string.

(** What [read_html] may give: flat labels, or a two-level [MultiIndex]
    of (group, field) pairs. *)
Inductive RawFrame (num : Type) : Type :=
  | FlatFrame (df : Frame num string)
  | TwoLevelFrame (df : Frame num (string * string)).

Arguments FlatFrame {num} df.
Arguments TwoLevelFrame {num} df.

(** The [<table>] found inside a comment: the texts of its
    [th scope="col"] cells, and, when it has a [tbody], the texts of the
    [th]/[td] cells of each of its rows. *)
Record HtmlTable : Type := mkHtmlTable
  { th_scope_col : list string;
    tbody : option (list (list string)) }.

(** A comment node of the page: its text, and the first table of the
    document obtained by parsing that text, if any. *)
Record CommentNode : Type := mkComment
  { comment_text : string;
    comment_table : option HtmlTable }.

(** One request to the site. [None] is a raised exception: for
    [read_html] a network error or a page without tables, for
    [get_comments] a failed request ([requests.get], [raise_for_status]). *)
Record Web (num : Type) : Type := mkWeb
  { read_html : string -> option (list (RawFrame num));
    get_comments : string -> option (list CommentNode) }.

Arguments mkWeb {num} read_html get_comments.
Arguments read_html {num} _ _.
Arguments get_comments {num} _ _.

(** How the body of a [try] block ended once [df] had been assigned:
    at its [return], or in the handler, which returns [df] as it stands. *)
Inductive ending (num : Type) : Type :=
  | Returned (df : DataFrame num)
  | Handled (df : DataFrame num).

Arguments Returned {num} df.
Arguments Handled {num} df.

(* ================================================================== *)
(** * The pipeline *)
(* ================================================================== *)

Section Pipeline.

(** pandas numeric scalars and the operations the program uses on them;
    they belong to the library, not to the program. *)
Variable num : Type.
(** The integer [0] written by [fillna(0)]. *)
Variable num_zero : num.
(** [str(x)] of a number, as [astype(str)] renders it. *)
Variable num_repr : num -> string.
(** [pd.to_numeric] on one text: [None] when the text is not a number. *)
Variable parse_num : string -> option num.
(** The comparison [x >= 1]. *)
Variable ge_one : num -> bool.

Definition names {L : Type} (df : Frame num L) : list L := map fst (cols df).

(** Every column has one cell per row. *)
Definition aligned {L : Type} (df : Frame num L) : Prop :=
  Forall (fun c => List.length (snd c) = nrows df) (cols df).

Definition map_cells {L : Type} (f : cell num -> cell num) (df : Frame num L)
  : Frame num L :=
  mkFrame (nrows df) (map (fun c => (fst c, map f (snd c))) (cols df)).

(** [df.fillna(0)]: both missing values are replaced. *)
Definition fill0 (c : cell num) : cell num :=
  match c with
  | NaN | Null => Num num_zero
  | other => other
  end.

Definition fillna0 {L : Type} (df : Frame num L) : Frame num L := map_cells fill0 df.

Definition raw_fillna0 (df : RawFrame num) : RawFrame num :=
  match df with
  | FlatFrame f => FlatFrame (fillna0 f)
  | TwoLevelFrame f => TwoLevelFrame (fillna0 f)
  end.

(** [pd.to_numeric(..., errors='coerce')] on one cell; [None] comes out
    as [NaN]. *)
Definition to_numeric (c : cell num) : cell num :=
  match c with
  | Text s =>
      match parse_num s with
      | Some n => Num n
      | None => NaN
      end
  | Null => NaN
  | other => other
  end.

(** [astype(str)] on one cell: [str] of the value. *)
Definition astype_str (c : cell num) : string :=
  match c with
  | Text s => s
  | Num n => num_repr n
  | NaN => "nan"
  | Null => "None"
  end.

(** ** [format_dataframe_columns] *)

Definition format_dataframe_columns (df : RawFrame num) (stat_category : string)
  : DataFrame num :=
  match df with
  | TwoLevelFrame f =>
      mkFrame (nrows f)
        (map (fun col => (multi_key stat_category (fst col), snd col)) (cols f))
  | FlatFrame f =>
      mkFrame (nrows f)
        (map (fun col => (flat_key stat_category (fst col), snd col)) (cols f))
  end.

Definition raw_nrows (df : RawFrame num) : nat :=
  match df with
  | FlatFrame f => nrows f
  | TwoLevelFrame f => nrows f
  end.

(** The columns of cells, without their labels. *)
Definition raw_values (df : RawFrame num) : list (list (cell num)) :=
  match df with
  | FlatFrame f => map snd (cols f)
  | TwoLevelFrame f => map snd (cols f)
  end.

(** Both labels of a two-level column are free of key-format delimiters. *)
Definition plain_labels (col : string * string) : Prop :=
  delimiter_free (fst col) = true /\ delimiter_free (snd col) = true.

(** ** Row and column selection *)

(** Boolean-mask selection of the entries of one column. *)
Fixpoint select (mask : list bool) (vals : list (cell num)) : list (cell num) :=
  match mask, vals with
  | b :: mask', v :: vals' =>
      if b then v :: select mask' vals' else select mask' vals'
  | _, _ => []
  end.

Definition count_true (mask : list bool) : nat := List.length (filter (fun b => b) mask).

(** [df[mask].reset_index(drop=True)] *)
Definition filter_rows (mask : list bool) (df : DataFrame num) : DataFrame num :=
  mkFrame (count_true mask)
    (map (fun c => (fst c, select mask (snd c))) (cols df)).

(** [cell != s] *)
Definition cell_ne (s : string) (c : cell num) : bool :=
  match c with
  | Text t => negb (String.eqb t s)
  | _ => true
  end.

(** [df[df.iloc[:, 0] != 'Rk'].reset_index(drop=True)]; [None] is the
    [IndexError] of [iloc[:, 0]] on a frame without columns. *)
Definition drop_header_rows (df : DataFrame num) : option (DataFrame num) :=
  match cols df with
  | [] => None
  | first :: _ => Some (filter_rows (map (cell_ne "Rk") (snd first)) df)
  end.

(** [df.loc[:, ~df.columns.str.contains(pat, case=False)]] *)
Definition drop_columns_containing (pat : string) (df : DataFrame num) : DataFrame num :=
  mkFrame (nrows df)
    (filter (fun c => negb (contains_nocase pat (fst c))) (cols df)).

(** [df.insert(loc, column, value)]; [None] is the [ValueError] of a label
    already present or the [IndexError] of a position past the end. *)
Definition insert (loc : nat) (column : string) (value : list (cell num))
  (df : DataFrame num) : option (DataFrame num) :=
  if mem column (names df) then None
  else if (loc <=? List.length (cols df))%nat then
    Some (mkFrame (nrows df)
            (firstn loc (cols df) ++ (column, value) :: skipn loc (cols df)))
  else None.

(** [pd.DataFrame(data, columns=headings)] for a list of rows of texts.
    Short rows are padded with [None] up to the longest row; the number
    of headings must be the width of the data, unless there is no row at
    all. [None] is the [ValueError] of a width mismatch. *)
Definition cell_at (row : list string) (j : nat) : cell num :=
  match nth_error row j with
  | Some t => Text t
  | None => Null
  end.

Definition frame_of_rows (data : list (list string)) (headings : list string)
  : option (DataFrame num) :=
  match data with
  | [] => Some (mkFrame 0 (map (fun h => (h, [])) headings))
  | _ =>
      if (list_max (map (@List.length string) data) =? List.length headings)%nat then
        Some (mkFrame (List.length data)
                (map (fun hj => (fst hj, map (fun row => cell_at row (snd hj)) data))
                     (combine headings (seq 0 (List.length headings)))))
      else None
  end.

(* ================================================================== *)
(** * Table extraction ([extract_tables]) *)
(* ================================================================== *)

Definition ending_frame (e : ending num) : DataFrame num :=
  match e with
  | Returned df => df
  | Handled df => df
  end.

(** The clean-up shared by the two strategies; [df] is the frame with its
    columns already reformatted. *)
Definition clean_table (df : DataFrame num) : ending num :=
  match drop_header_rows df with
  | None => Handled df
  | Some df1 =>
      Returned (drop_columns_containing "Rk" (drop_columns_containing "matches" df1))
  end.

(** The first [try] block from [df = tables[0].fillna(0)] on. *)
Definition direct_strategy (first_table : RawFrame num) (stat : string)
  : ending num :=
  clean_table (format_dataframe_columns (raw_fillna0 first_table) stat).

(** The second [try] block up to the assignment of [df]:
    [None] when an exception leaves [df] unassigned. *)
Definition comment_frame (w : Web num) (url : string) : option (DataFrame num) :=
  match get_comments w url with
  | None => None
  | Some comment_tables =>
      match find (fun c => contains table_container_marker (comment_text c))
                 comment_tables with
      | None => None
      | Some found =>
          match comment_table found with
          | None => None
          | Some table =>
              match tbody table with
              | None => None
              | Some data =>
                  match frame_of_rows data (th_scope_col table) with
                  | None => None
                  | Some df => Some (fillna0 df)
                  end
              end
          end
      end
  end.

(** [df.insert(4, 'Comp', [league] * len(df))] when the league is not the
    combined one. *)
Definition add_comp (league : string) (df : DataFrame num)
  : option (DataFrame num) :=
  if String.eqb league big5_league then Some df
  else insert 4 "Comp" (repeat (Text league) (nrows df)) df.

(** The second [try] block after the assignment of [df]
    (with [save_excel=False], as in every call of the program). *)
Definition finish_fallback (league stat : string) (df : DataFrame num)
  : ending num :=
  match add_comp league df with
  | None => Handled df
  | Some df1 => clean_table (format_dataframe_columns (FlatFrame df1) stat)
  end.

Definition fallback_strategy (w : Web num) (league stat url : string)
  : option (DataFrame num) :=
  match comment_frame w url with
  | None => None
  | Some df => Some (ending_frame (finish_fallback league stat df))
  end.

(** [extract_tables(league, season, stat)]: the pair [(df, url)]. *)
Definition extract_tables (w : Web num) (league season stat : string)
  : option (DataFrame num) * option string :=
  match scrape_stats_player league season stat with
  | None => (None, None)
  | Some url =>
      if String.eqb url "" then (None, Some url)
      else
        match read_html w url with
        | None => (None, Some url)
        | Some tables =>
            match contains "Big5" url, tables with
            | true, first_table :: _ =>
                (Some (ending_frame (direct_strategy first_table stat)), Some url)
            | _, _ => (fallback_strategy w league stat url, Some url)
            end
        end
  end.

(* ================================================================== *)
(** * Renaming and text cleaning ([formatear_datos]) *)
(* ================================================================== *)

(** Failure of a step is [None]; [x <- e ;; k] stops at the first one. *)
Definition bind {A B : Type} (e : option A) (k : A -> option B) : option B :=
  match e with
  | Some a => k a
  | None => None
  end.

Notation "x <- e ;; k" := (bind e (fun x => k))
  (at level 61, e at next level, right associativity).

Definition count_label (name : string) (df : DataFrame num) : nat :=
  List.length (filter (String.eqb name) (names df)).

(** [df[name]] used as one Series: the label must occur exactly once
    (absent: [KeyError]; repeated: the selection is a frame, on which the
    Series operations that follow raise). *)
Definition first_column (name : string) (cs : list (string * list (cell num)))
  : option (list (cell num)) :=
  option_map snd (find (fun c => String.eqb name (fst c)) cs).

Definition series (name : string) (df : DataFrame num) : option (list (cell num)) :=
  if (count_label name df =? 1)%nat then first_column name (cols df)
  else None.

(** [df[name] = vals]: overwrite the columns of that label, or append a
    new last column. *)
Definition set_column (name : string) (vals : list (cell num)) (df : DataFrame num)
  : DataFrame num :=
  if mem name (names df) then
    mkFrame (nrows df)
      (map (fun c => if String.eqb name (fst c) then (fst c, vals) else c) (cols df))
  else mkFrame (nrows df) (cols df ++ [(name, vals)]).

Definition rename_columns (df : DataFrame num) : DataFrame num :=
  mkFrame (nrows df)
    (map (fun c =>
            (match dict_get mapeo_columns (fst c) with
             | Some v => v
             | None => fst c
             end, snd c))
         (cols df)).

Definition of_match (m : option string) : cell num :=
  match m with
  | Some g => Text g
  | None => NaN
  end.

(** [.astype(str).str.extract(r'([A-Z]+)$')] on one cell. *)
Definition extraer_nacionalidad (c : cell num) : cell num :=
  of_match (search_upper_end (astype_str c)).

(** [.astype(str).str.split('-').str[0]] on one cell. *)
Definition extraer_edad (c : cell num) : cell num :=
  Text (split_first "-"%char (astype_str c)).

(** [.astype(str).str.extract(r'\s(.+)')] on one cell. *)
Definition extraer_competicion (c : cell num) : cell num :=
  of_match (search_space_rest (astype_str c)).

(** [if name in df.columns: df[name] = f(df[name])] *)
Definition clean_column (name : string) (f : cell num -> cell num) (df : DataFrame num)
  : option (DataFrame num) :=
  if mem name (names df) then
    vals <- series name df ;;
    Some (set_column name (map f vals) df)
  else Some df.

Definition formatear_datos (df : DataFrame num) : option (DataFrame num) :=
  df1 <- clean_column "Nacionalidad" extraer_nacionalidad (rename_columns df) ;;
  df2 <- clean_column "Edad" extraer_edad df1 ;;
  clean_column "Competicion" extraer_competicion df2.

(* ================================================================== *)
(** * Position decomposition on a frame ([procesar_posiciones]) *)
(* ================================================================== *)

(** A [.str] operation on one cell of a text column: a cell that is not
    a text becomes missing. *)
Definition on_text (f : string -> string) (c : cell num) : cell num :=
  match c with
  | Text s => Text (f s)
  | _ => NaN
  end.

Definition is_text (c : cell num) : bool :=
  match c with
  | Text _ => true
  | _ => false
  end.

Definition is_null (c : cell num) : bool :=
  match c with
  | Null => true
  | _ => false
  end.

(** Does the [.str] accessor accept the column? The column has the dtype
    pandas infers from its values. It is accepted when it holds a text
    (with whatever else), and when it holds nothing but [None], which
    covers the column without rows; a column of numbers, of [NaN], or of
    both is a numeric column, on which the accessor raises
    [AttributeError]. *)
Definition str_accessor (vals : list (cell num)) : bool :=
  existsb is_text vals || forallb is_null vals.

(** [df[name].str]: the column as one Series, accepted by the accessor. *)
Definition str_series (name : string) (df : DataFrame num)
  : option (list (cell num)) :=
  vals <- series name df ;;
  if str_accessor vals then Some vals else None.

Definition drop_columns_named (name : string) (df : DataFrame num) : DataFrame num :=
  mkFrame (nrows df)
    (filter (fun c => negb (String.eqb name (fst c))) (cols df)).

Definition procesar_posiciones (df : DataFrame num) (columna : string)
  : option (DataFrame num) :=
  v1 <- str_series columna df ;;
  let df1 := set_column "Posicion_principal"
               (map (on_text posicion_principal) v1) df in
  v2 <- str_series columna df1 ;;
  let df2 := set_column "Posicion_2"
               (map (on_text posicion_2) v2) df1 in
  if mem columna (names df2) then Some (drop_columns_named columna df2)
  else None.

(* ================================================================== *)
(** * The merge ([creacion_df_general_fbref], [creacion_df_porteros_fbref]) *)
(* ================================================================== *)

(** Re-indexing of one column on rows [0 .. n-1]: rows the column does
    not have are missing. *)
Definition pad (n : nat) (vals : list (cell num)) : list (cell num) :=
  vals ++ repeat NaN (n - List.length vals).

(** [pd.concat(frames, axis=1)] of frames indexed [0 .. nrows-1]: the
    result is indexed by the union of the indexes, the columns follow
    each other in input order. [None]: nothing to concatenate. *)
Definition concat_axis1 (frames : list (DataFrame num)) : option (DataFrame num) :=
  match frames with
  | [] => None
  | _ =>
      let n := list_max (map nrows frames) in
      Some (mkFrame n
              (flat_map (fun df => map (fun c => (fst c, pad n (snd c))) (cols df))
                        frames))
  end.

(** The columns kept by the mask [~columns.duplicated(keep='first')];
    [seen] holds the labels met so far. *)
Fixpoint keep_first (seen : list string) (cs : list (string * list (cell num)))
  : list (string * list (cell num)) :=
  match cs with
  | [] => []
  | c :: cs' =>
      if mem (fst c) seen then keep_first seen cs'
      else c :: keep_first (fst c :: seen) cs'
  end.

Definition drop_duplicated (df : DataFrame num) : DataFrame num :=
  mkFrame (nrows df) (keep_first [] (cols df)).

(** [df.loc[:, df.columns[k:]] = df.loc[:, df.columns[k:]].apply(pd.to_numeric, errors='coerce')]
    on a frame whose labels are pairwise distinct. *)
Definition numeric_from (k : nat) (df : DataFrame num) : DataFrame num :=
  mkFrame (nrows df)
    (firstn k (cols df)
     ++ map (fun c => (fst c, map to_numeric (snd c))) (skipn k (cols df))).

(** The last three statements of both builders. *)
Definition merge_frames (frames : list (DataFrame num)) : option (DataFrame num) :=
  df <- concat_axis1 frames ;;
  Some (numeric_from 7 (drop_duplicated df)).

(** [formatear_datos(extract_tables(league, "2024-2025", stat)[0])];
    a [None] table makes [formatear_datos] raise. *)
Definition fetch_formatted (w : Web num) (league stat : string) : option (DataFrame num) :=
  df <- fst (extract_tables w league "2024-2025" stat) ;;
  formatear_datos df.

Definition mp_playing_time : string := "MP (Playing Time - Playing Time)".

Definition cell_ge_one (c : cell num) : bool :=
  match c with
  | Num n => ge_one n
  | _ => false
  end.

(** [obtener_foramtear_playingtime_jugadores]: league, season and
    statistic are fixed in its body, whatever the arguments. *)
Definition obtener_foramtear_playingtime_jugadores (w : Web num) : option (DataFrame num) :=
  df <- fst (extract_tables w big5_league "2024-2025" "Playing Time") ;;
  mp <- series mp_playing_time df ;;
  let mp_num := map to_numeric mp in
  let df1 := set_column mp_playing_time mp_num df in
  Some (filter_rows (map cell_ge_one mp_num) df1).

Definition creacion_df_general_fbref (w : Web num) (league : string)
  : option (DataFrame num) :=
  df_general_stats <- fetch_formatted w league "Standard Stats" ;;
  df_general_shooting <- fetch_formatted w league "Shooting" ;;
  df_general_passing <- fetch_formatted w league "Passing" ;;
  df_general_passingtype <- fetch_formatted w league "Pass Types" ;;
  df_general_gca <- fetch_formatted w league "Goal and Shot Creation" ;;
  df_general_df_defensiveactions <- fetch_formatted w league "Defensive Actions" ;;
  df_general_possession <- fetch_formatted w league "Possession" ;;
  df_general_misc <- fetch_formatted w league "Miscellaneous Stats" ;;
  df_playingtime <- obtener_foramtear_playingtime_jugadores w ;;
  df_playingtime_jugadores <- formatear_datos df_playingtime ;;
  merge_frames
    [ df_general_stats; df_general_shooting; df_general_passing;
      df_general_passingtype; df_general_gca; df_general_df_defensiveactions;
      df_general_possession; df_general_misc; df_playingtime_jugadores ].

Definition creacion_df_porteros_fbref (w : Web num) (league : string)
  : option (DataFrame num) :=
  df_goalkeepers <- fetch_formatted w league "Goalkeeping" ;;
  df_advgoalkeepers <- fetch_formatted w league "Advanced Goalkeeping" ;;
  merge_frames [ df_goalkeepers; df_advgoalkeepers ].

(* ================================================================== *)
(** * Late numeric coercion ([convertir_columnas_numericas_*]) *)
(* ================================================================== *)

(** [df.columns.get_loc(name)] used as a number: the label must occur
    exactly once ([KeyError] when absent; a slice or a mask, on which
    [+ 1] and the slicing that follows raise, when repeated). *)
Fixpoint index_of (name : string) (labels : list string) : option nat :=
  match labels with
  | [] => None
  | l :: labels' =>
      if String.eqb name l then Some 0
      else option_map S (index_of name labels')
  end.

Definition get_loc (name : string) (df : DataFrame num) : option nat :=
  if (count_label name df =? 1)%nat then index_of name (names df) else None.

(** [pd.to_numeric(col.replace({',': '.', '%': ''}, regex=True), errors='coerce')]
    on one cell. *)
Definition replace_separators (c : cell num) : cell num :=
  match c with
  | Text s => Text (re_sub_char "%"%char "" (re_sub_char ","%char "." s))
  | other => other
  end.

Definition coerce_cell (c : cell num) : cell num := to_numeric (replace_separators c).

Fixpoint mapi_from {A B : Type} (j : nat) (f : nat -> A -> B) (l : list A)
  : list B :=
  match l with
  | [] => []
  | a :: l' => f j a :: mapi_from (S j) f l'
  end.

(** The coercion applied to the columns at positions [start <= j < stop]. *)
Definition coerce_span (start stop : nat) (df : DataFrame num) : DataFrame num :=
  mkFrame (nrows df)
    (mapi_from 0
       (fun j c =>
          if ((start <=? j) && (j <? stop))%nat
          then (fst c, map coerce_cell (snd c))
          else c)
       (cols df)).

(** The labels [df.columns[start:stop]]. *)
Definition cols_convertir (start stop : nat) (df : DataFrame num) : list string :=
  firstn (stop - start) (skipn start (names df)).

(** [df[cols] = df[cols].apply(...)] for [cols = df.columns[start:stop]].
    The selection [df[cols]] takes every column that carries one of the
    labels: when a label of [cols] is carried by two columns the columns
    selected are more than the keys and the assignment raises
    [ValueError] ([None]). Otherwise selection and assignment by label
    are selection and assignment at the positions [start <= j < stop]. *)
Definition assign_converted (start stop : nat) (df : DataFrame num)
  : option (DataFrame num) :=
  if forallb (fun l => (count_label l df =? 1)%nat) (cols_convertir start stop df)
  then Some (coerce_span start stop df)
  else None.

(** Columns [get_loc(columna_inicio) + 1 :] *)
Definition convertir_columnas_numericas_goalkeepers
  (df : DataFrame num) (columna_inicio : string) : option (DataFrame num) :=
  i <- get_loc columna_inicio df ;;
  assign_converted (i + 1) (List.length (cols df)) df.

(** Columns [get_loc(columna_inicio) + 1 : -2] *)
Definition convertir_columnas_numericas_jugadores
  (df : DataFrame num) (columna_inicio : string) : option (DataFrame num) :=
  i <- get_loc columna_inicio df ;;
  assign_converted (i + 1) (List.length (cols df) - 2) df.

(* ================================================================== *)
(** * Well-formed frames *)
(* ================================================================== *)

(** No cell of the frame is missing, be it [NaN] or [None]. *)
Definition no_missing {L : Type} (df : Frame num L) : Prop :=
  Forall (fun c => ~ In NaN (snd c) /\ ~ In Null (snd c)) (cols df).

Definition raw_aligned (df : RawFrame num) : Prop :=
  match df with
  | FlatFrame f => aligned f
  | TwoLevelFrame f => aligned f
  end.


(** Does a white-space character occur in [s]? *)
Fixpoint any_space (s : string) : bool :=
  match s with
  | EmptyString => false
  | String c s' => is_space c || any_space s'
  end.

(** What [formatear_datos] does to the cells of a column, by its label
    after renaming. *)
Definition limpiar_columna (label : string) (vals : list (cell num))
  : list (cell num) :=
  if String.eqb "Nacionalidad" label then map extraer_nacionalidad vals
  else if String.eqb "Edad" label then map extraer_edad vals
  else if String.eqb "Competicion" label then map extraer_competicion vals
  else vals.


(** The statistics fetched, in order, by the general build. *)
Definition general_stats : list string :=
  [ "Standard Stats"; "Shooting"; "Passing"; "Pass Types";
    "Goal and Shot Creation"; "Defensive Actions"; "Possession";
    "Miscellaneous Stats" ].

(** The tables [read_html] gives have one cell per row in every column. *)
Definition aligned_web (w : Web num) : Prop :=
  forall url tables t,
    read_html w url = Some tables -> In t tables -> raw_aligned t.


(* ================================================================== *)
(** * Worked tables *)
(* ================================================================== *)

(** The worked tables take the integers as numeric scalars, read from
    plain digit strings: the reader [parse_digits] stands for
    [pd.to_numeric] on the cells of these tables only, which hold
    unsigned whole numbers or texts that are no number at all. The
    theorems are stated for every reader [parse_num]. *)
Definition is_digit (c : ascii) : bool :=
  ((48 <=? nat_of_ascii c) && (nat_of_ascii c <=? 57))%nat.

Fixpoint digits_value (acc : Z) (s : string) : option Z :=
  match s with
  | EmptyString => Some acc
  | String c s' =>
      if is_digit c
      then digits_value (10 * acc + Z.of_nat (nat_of_ascii c - 48)) s'
      else None
  end.

(** An unsigned whole number in decimal digits; signs, blanks, decimal
    points and exponents, which [pd.to_numeric] also reads, do not occur
    in the worked tables. *)
Definition parse_digits (s : string) : option Z :=
  match s with
  | EmptyString => None
  | _ => digits_value 0 s
  end.

Definition repr_int (z : Z) : string := NilZero.string_of_int (Z.to_int z).

Definition tabla_corta : DataFrame Z :=
  mkFrame 1 [ ("Player", [Text "Pedri"]); ("Equipo", [Text "Barcelona"]) ].

Definition tabla_larga : DataFrame Z :=
  mkFrame 2 [ ("Player", [Text "Pedri"; Text "Gavi"]);
              ("Goles", [Text "4"; Text "1"]) ].

(** The two tables above, merged. *)
Definition tabla_unida : DataFrame Z :=
  mkFrame 2 [ ("Player", [Text "Pedri"; NaN]);
              ("Equipo", [Text "Barcelona"; NaN]);
              ("Goles", [Text "4"; Text "1"]) ].

Definition tabla_posiciones : DataFrame Z :=
  mkFrame 2 [ ("Player", [Text "Pedri"; Text "Araujo"]);
              ("Posicion", [Text "MF,FW"; Text "DF"]) ].

Definition tabla_cabecera_repetida : RawFrame Z :=
  FlatFrame (mkFrame 1 [ ("Gls", [Text "10"]); ("Gls", [Text "3"]) ]).

Definition tabla_dos_niveles : Frame Z (string * string) :=
  mkFrame 1 [ (("Performance", "Gls"), [Text "10"]);
              (("Performance", "Ast"), [Text "5"]) ].

Definition tabla_jugadores : DataFrame Z :=
  mkFrame 1 [ ("Player", [Text "Pedri"]);
              ("Competicion", [Text "La Liga"]);
              ("Goles", [Text "4"]);
              ("% Pases completados", [Text "88%"]);
              ("Posicion_principal", [Text "Midfielder"]);
              ("Posicion_2", [Text "Forward"]) ].

(** A page of a single league whose comment holds a table with two
    header cells only. *)
Definition pagina_dos_columnas : Web Z :=
  mkWeb
    (fun _ => Some [FlatFrame (mkFrame 1 [ ("Player", [Text "Pedri"]) ])])
    (fun _ =>
       Some [ mkComment (table_container_marker ++ " id=" ++ chr 34 ++ "div_stats" ++ chr 34 ++ ">")
                (Some (mkHtmlTable ["Player"; "Squad"]
                         (Some [ ["Pedri"; "Barcelona"] ]))) ]).

(** A page of a single league whose comment holds a table with a rank
    column and a repeated header row. *)
Definition pagina_liga : Web Z :=
  mkWeb
    (fun _ => Some [FlatFrame (mkFrame 1 [ ("Player", [Text "Pedri"]) ])])
    (fun _ =>
       Some [ mkComment "a plain remark" None;
              mkComment (table_container_marker ++ ">")
                (Some (mkHtmlTable ["Rk"; "Player"; "Nation"; "Pos"; "Squad"; "Age"]
                         (Some [ ["1"; "Pedri"; "es ESP"; "MF"; "Barcelona"; "21-200"];
                                 ["Rk"; "Player"; "Nation"; "Pos"; "Squad"; "Age"];
                                 ["2"; "Gavi"; "es ESP"; "MF"; "Barcelona"] ]))) ]).

Definition url_la_liga : string :=
  "https://fbref.com/en/comps/12/stats/players/2024-2025/La-Liga-Stats".

(** A site that is down for [read_html]. *)
Definition pagina_caida : Web Z :=
  mkWeb (fun _ => None)
        (fun _ =>
           Some [ mkComment (table_container_marker ++ ">")
                    (Some (mkHtmlTable ["Rk"; "Player"]
                             (Some [ ["1"; "Pedri"] ]))) ]).

(** A table of the combined league as [read_html] gives it, with its
    two-level header, a repeated header row and a player who has not
    played. *)
Definition tabla_big5 : RawFrame Z :=
  TwoLevelFrame
    (mkFrame 4
       [ (("Unnamed: 0_level_0", "Rk"), [Text "1"; Text "Rk"; Text "2"; Text "3"]);
         (("Unnamed: 1_level_0", "Player"),
            [Text "Pedri"; Text "Player"; Text "Gavi"; Text "Musiala"]);
         (("Playing Time", "MP"), [Text "30"; Text "MP"; Text "0"; NaN]) ]).

(** A site that serves [tabla_big5] to [read_html] and the comment table
    of [pagina_liga] to the comment strategy. *)
Definition pagina_big5 : Web Z :=
  mkWeb (fun _ => Some [tabla_big5])
        (fun url => get_comments pagina_liga url).

Definition url_big5_playing_time : string :=
  "https://fbref.com/en/comps/Big5/playingtime/players/2024-2025/Big-5-European-Leagues-Stats".

(** A reformatted table with a repeated header row. *)
Definition tabla_con_cabecera : DataFrame Z :=
  mkFrame 2 [ ("Rk (Shooting)", [Text "1"; Text "Rk"]);
              ("Player (Shooting)", [Text "Pedri"; Text "Player"]);
              ("Matches (Shooting)", [Text "Matches"; Text "Matches"]) ].


(* ================================================================== *)
(** * Properties of the text operations *)
(* ================================================================== *)

Lemma slice_to_from (n : nat) (s : string) :
  slice_to n s ++ slice_from n s = s.
Proof.
  revert s; induction n as [|n IH]; intros [|c s]; simpl; trivial.
  now rewrite IH.
Qed.

Lemma slice_from_length (n : nat) (s : string) :
  String.length (slice_from n s) = String.length s - n.
Proof.
  revert s; induction n as [|n IH]; intros [|c s]; simpl; trivial.
Qed.

Lemma slice_to_app (a b : string) :
  slice_to (String.length a) (a ++ b) = a.
Proof.
  induction a as [|c a IH]; simpl.
  - now destruct b.
  - now rewrite IH.
Qed.

Lemma slice_from_app (a b : string) :
  slice_from (String.length a) (a ++ b) = b.
Proof.
  induction a as [|c a IH]; simpl; trivial.
Qed.

Lemma slice_from_short (n : nat) (s : string) :
  String.length s <= n -> slice_from n s = "".
Proof.
  revert s; induction n as [|n IH]; intros [|c s]; simpl; intros H; trivial.
  - lia.
  - apply IH; lia.
Qed.

Lemma app_assoc_string (a b c : string) : (a ++ b) ++ c = a ++ b ++ c.
Proof.
  induction a as [|x a IH]; simpl; trivial. now rewrite IH.
Qed.

Lemma app_empty_r (a : string) : a ++ "" = a.
Proof.
  induction a as [|x a IH]; simpl; trivial. now rewrite IH.
Qed.

Lemma app_length_string (a b : string) :
  String.length (a ++ b) = String.length a + String.length b.
Proof.
  induction a as [|x a IH]; simpl; trivial. now rewrite IH.
Qed.

Lemma app_inv_tail_string (a b c : string) : a ++ c = b ++ c -> a = b.
Proof.
  revert b; induction a as [|x a IH]; intros [|y b]; simpl; intros H; trivial.
  - exfalso. apply (f_equal String.length) in H. simpl in H.
    rewrite app_length_string in H. lia.
  - exfalso. apply (f_equal String.length) in H. simpl in H.
    rewrite app_length_string in H. lia.
  - injection H as -> H. f_equal. now apply IH.
Qed.

(** ** Splitting at a character *)

Lemma split_first_app (c : ascii) (a b : string) :
  occurs c a = false -> split_first c (a ++ String c b) = a.
Proof.
  induction a as [|d a IH]; simpl.
  - now rewrite Ascii.eqb_refl.
  - intros H. apply orb_false_iff in H as [H1 H2].
    rewrite H1. now rewrite IH.
Qed.

Lemma after_first_app (c : ascii) (a b : string) :
  occurs c a = false -> after_first c (a ++ String c b) = b.
Proof.
  induction a as [|d a IH]; simpl.
  - now rewrite Ascii.eqb_refl.
  - intros H. apply orb_false_iff in H as [H1 H2].
    rewrite H1. now apply IH.
Qed.

Lemma drop_last_app (a : string) (c : ascii) :
  drop_last (a ++ String c "") = a.
Proof.
  induction a as [|d a IH]; simpl; trivial.
  rewrite IH. destruct a; reflexivity.
Qed.

Lemma occurs_app (c : ascii) (a b : string) :
  occurs c (a ++ b) = occurs c a || occurs c b.
Proof.
  induction a as [|d a IH]; simpl; trivial.
  now rewrite IH, orb_assoc.
Qed.

Lemma delimiter_free_occurs (c : ascii) (s : string) :
  is_delimiter c = true -> delimiter_free s = true -> occurs c s = false.
Proof.
  intros Hc. induction s as [|d s IH]; simpl; trivial.
  intros H. apply andb_true_iff in H as [H1 H2].
  rewrite (IH H2), orb_false_r.
  destruct (Ascii.eqb_spec d c) as [->|]; trivial.
  now rewrite Hc in H1.
Qed.

(** ** Keys of a two-level header can be read back *)

Lemma rederive_multi_key (stat_category group field : string) :
  occurs "("%char field = false ->
  occurs "-"%char group = false ->
  rederive_key (multi_key stat_category (group, field)) = (group, field).
Proof.
  intros Hf Hg. unfold rederive_key, multi_key. cbn [fst snd].
  change (field ++ " (" ++ group ++ " - " ++ stat_category ++ ")")
    with (field ++ String " " (String "(" (group ++ String " "
            (String "-" (String " " (stat_category ++ ")")))))).
  assert (E : forall a c r, a ++ String " " (String c r)
                            = (a ++ " ") ++ String c r).
  { intros a c r. now rewrite app_assoc_string. }
  rewrite (E field). rewrite split_first_app, after_first_app.
  - rewrite (E group). rewrite split_first_app.
    + now rewrite !drop_last_app.
    + rewrite occurs_app, Hg. reflexivity.
  - rewrite occurs_app, Hf. reflexivity.
  - rewrite occurs_app, Hf. reflexivity.
Qed.

Lemma multi_key_injective (stat_category : string) (p q : string * string) :
  delimiter_free (fst p) = true -> delimiter_free (snd p) = true ->
  delimiter_free (fst q) = true -> delimiter_free (snd q) = true ->
  multi_key stat_category p = multi_key stat_category q -> p = q.
Proof.
  destruct p as [g f], q as [g' f']. cbn [fst snd]. intros Hg Hf Hg' Hf' E.
  apply (f_equal rederive_key) in E.
  rewrite !rederive_multi_key in E;
    trivial; now apply delimiter_free_occurs.
Qed.

Lemma flat_key_injective (stat_category a b : string) :
  flat_key stat_category a = flat_key stat_category b -> a = b.
Proof.
  unfold flat_key. apply app_inv_tail_string.
Qed.

Lemma NoDup_map_iff {A B : Type} (f : A -> B) (l : list A) :
  (forall x y, In x l -> In y l -> f x = f y -> x = y) ->
  NoDup (map f l) <-> NoDup l.
Proof.
  intros Hinj. split.
  - apply NoDup_map_inv.
  - induction l as [|a l IH]; simpl; intros H.
    + constructor.
    + inversion H as [|? ? Ha Hl]; subst. constructor.
      * intros Hin. apply in_map_iff in Hin as [x [E Hx]].
        assert (x = a) by (apply Hinj; simpl; auto). now subst.
      * apply IH; trivial. intros x y Hx Hy. apply Hinj; simpl; auto.
Qed.

(* ================================================================== *)
(** * Header flattening *)
(* ================================================================== *)

(** C4. Header flattening gives, in column order, the key
    ["<label> (<categoryTag>)"] for each column of a single-level header
    and ["<field-label> (<group-label> - <categoryTag>)"] for each column
    of a two-level header; the cells and the row count are left as they
    were. *)
Theorem format_dataframe_columns_keys (df : RawFrame num) (stat_category : string) :
  names (format_dataframe_columns df stat_category) =
    match df with
    | FlatFrame f =>
        map (fun label => label ++ " (" ++ stat_category ++ ")") (names f)
    | TwoLevelFrame f =>
        map (fun col => snd col ++ " (" ++ fst col ++ " - " ++ stat_category ++ ")")
            (names f)
    end
  /\ map snd (cols (format_dataframe_columns df stat_category)) = raw_values df
  /\ nrows (format_dataframe_columns df stat_category) = raw_nrows df.
Proof.
  destruct df as [f|f]; unfold names; cbn [format_dataframe_columns cols nrows
    raw_values raw_nrows]; rewrite !map_map; cbn [fst snd]; repeat split.
Qed.

(** C5, as the program has it. Flattening never drops a column: the
    result has one key per input column, and its keys are pairwise
    distinct exactly when the input labels are (for a two-level header
    whose labels are free of the key-format delimiters: exactly when its
    (group, field) pairs are). *)
Theorem format_dataframe_columns_keeps_every_column
  (df : RawFrame num) (stat_category : string) :
  List.length (names (format_dataframe_columns df stat_category))
    = List.length (raw_values df)
  /\ match df with
     | FlatFrame f =>
         NoDup (names (format_dataframe_columns df stat_category))
         <-> NoDup (names f)
     | TwoLevelFrame f =>
         Forall plain_labels (names f) ->
         (NoDup (names (format_dataframe_columns df stat_category))
          <-> NoDup (names f))
     end.
Proof.
  destruct df as [f|f]; unfold names; cbn [format_dataframe_columns cols
    raw_values]; rewrite !map_map; cbn [fst snd]; rewrite !length_map; split;
    trivial.
  - rewrite <- (map_map fst (flat_key stat_category)).
    apply NoDup_map_iff. intros x y _ _. apply flat_key_injective.
  - intros Hplain.
    rewrite <- (map_map fst (multi_key stat_category)).
    apply NoDup_map_iff. intros x y Hx Hy.
    rewrite Forall_forall in Hplain.
    destruct (Hplain x Hx), (Hplain y Hy).
    now apply multi_key_injective.
Qed.

(** C6. For a two-level header whose group and field labels contain none
    of the delimiter characters of the key format, reading the generated
    keys back gives exactly the original (group, field) pairs. *)
Theorem flatten_then_rederive (f : Frame num (string * string)) (stat_category : string) :
  Forall plain_labels (names f) ->
  map rederive_key (names (format_dataframe_columns (TwoLevelFrame f) stat_category))
    = names f.
Proof.
  unfold names; cbn [format_dataframe_columns cols]. rewrite !map_map.
  cbn [fst]. generalize (cols f) as cs. clear f.
  induction cs as [|[[g fl] v] cs IH]; cbn [map fst]; intros H; trivial.
  inversion H as [|? ? [Hg Hf] Hrest]; subst. cbn [fst snd] in Hg, Hf.
  rewrite IH by assumption. f_equal.
  apply rederive_multi_key; now apply delimiter_free_occurs.
Qed.

(* ================================================================== *)
(** * Position decomposition *)
(* ================================================================== *)

Lemma limpiar_posicion_2_nonempty (x : string) : limpiar_posicion_2 x <> "".
Proof.
  unfold limpiar_posicion_2. destruct (strip_nonempty x) eqn:E.
  - intros ->. discriminate E.
  - discriminate.
Qed.

(** C3, as the program has it. ["MF,FW"] decomposes into Midfielder and
    Forward, ["DF"] into Defender and the empty text; whenever nothing
    follows the separator the secondary position produced by the
    decomposition is the empty text. The explicit marker is written later,
    by the clean-up of the analysis tab, which turns that empty text into
    ["No encontrado"] and never leaves an empty text. *)
Theorem posiciones_decomposition :
  posicion_principal "MF,FW" = "Midfielder"
  /\ posicion_2 "MF,FW" = "Forward"
  /\ posicion_principal "DF" = "Defender"
  /\ posicion_2 "DF" = ""
  /\ (forall codigo, slice_from 3 codigo = "" ->
        posicion_2 codigo = ""
        /\ limpiar_posicion_2 (posicion_2 codigo) = no_encontrado)
  /\ (forall x, limpiar_posicion_2 x <> "").
Proof.
  repeat split; try reflexivity.
  - unfold posicion_2. now rewrite H.
  - unfold posicion_2. now rewrite H.
  - apply limpiar_posicion_2_nonempty.
Qed.

(* ================================================================== *)
(** * The nationality pattern *)
(* ================================================================== *)

Lemma at_dollar_long (r : string) : 2 <= String.length r -> at_dollar r = false.
Proof.
  destruct r as [|c [|d r]]; simpl; intros H; lia || reflexivity.
Qed.

Lemma match_backtrack_none (k : nat) (s : string) :
  k + 2 <= String.length s -> match_backtrack k s = None.
Proof.
  induction k as [|k IH]; intros H; trivial.
  cbn [match_backtrack]. rewrite at_dollar_long.
  - apply IH; lia.
  - rewrite slice_from_length. lia.
Qed.

Lemma upper_run_le (s : string) : upper_run s <= String.length s.
Proof.
  induction s as [|c s IH]; simpl; trivial. destruct (is_upper c); simpl; lia.
Qed.

Lemma upper_run_all_upper (tok rest : string) :
  all_upper tok = true -> at_dollar rest = true ->
  upper_run (tok ++ rest) = String.length tok.
Proof.
  intros Htok Hrest. induction tok as [|c tok IH]; simpl.
  - destruct rest as [|d [|e rest]]; simpl in *; trivial; try discriminate.
    apply Ascii.eqb_eq in Hrest. subst d. reflexivity.
  - simpl in Htok. apply andb_true_iff in Htok as [Hc Ht].
    rewrite Hc. now rewrite IH.
Qed.

Lemma match_here_token (tok rest : string) :
  tok <> "" -> all_upper tok = true -> at_dollar rest = true ->
  match_here (tok ++ rest) = Some tok.
Proof.
  intros Hne Htok Hrest. unfold match_here.
  rewrite upper_run_all_upper by assumption.
  destruct tok as [|c tok]; [congruence|].
  change (String.length (String c tok)) with (S (String.length tok)).
  cbn [match_backtrack].
  change (S (String.length tok)) with (String.length (String c tok)).
  now rewrite slice_from_app, Hrest, slice_to_app.
Qed.

(** Before a character that is not a capital, a run of capitals stops. *)
Lemma upper_run_before (p t : string) :
  p <> "" -> ends_upper p = false ->
  upper_run (p ++ t) < String.length p.
Proof.
  induction p as [|c p IH]; intros Hne He; [congruence|].
  destruct p as [|d p].
  - simpl in *. rewrite He. lia.
  - change (ends_upper (String c (String d p))) with (ends_upper (String d p)) in He.
    specialize (IH ltac:(discriminate) He).
    change ((String c (String d p)) ++ t) with (String c (String d p ++ t)).
    cbn [upper_run]. destruct (is_upper c); simpl in *; lia.
Qed.

Lemma search_upper_end_token (pre tok rest : string) :
  ends_upper pre = false ->
  tok <> "" -> all_upper tok = true -> at_dollar rest = true ->
  search_upper_end (pre ++ tok ++ rest) = Some tok.
Proof.
  intros Hpre Hne Htok Hrest.
  induction pre as [|c pre IH].
  - change ("" ++ tok ++ rest) with (tok ++ rest).
    destruct (tok ++ rest) eqn:E; cbn [search_upper_end];
      rewrite <- E, match_here_token; trivial.
  - change (String c pre ++ tok ++ rest) with (String c (pre ++ tok ++ rest)).
    cbn [search_upper_end].
    change (String c (pre ++ tok ++ rest)) with (String c pre ++ tok ++ rest).
    unfold match_here at 1. rewrite match_backtrack_none.
    + apply IH. destruct pre; trivial.
    + pose proof (upper_run_before (String c pre) (tok ++ rest)
                    ltac:(discriminate) Hpre) as Hlt.
      rewrite !app_length_string.
      destruct tok; [congruence|]. simpl in *. lia.
Qed.

Lemma slice_to_all_upper (j : nat) (s : string) :
  j <= upper_run s -> all_upper (slice_to j s) = true.
Proof.
  revert s; induction j as [|j IH]; intros [|c s]; simpl; trivial.
  destruct (is_upper c); simpl; intros H; [apply IH|]; lia.
Qed.

Lemma match_backtrack_some (k : nat) (s g : string) :
  k <= upper_run s -> match_backtrack k s = Some g ->
  g <> "" /\ all_upper g = true
  /\ exists rest, s = g ++ rest /\ at_dollar rest = true.
Proof.
  revert g. induction k as [|k IH]; intros g Hk; cbn [match_backtrack];
    [discriminate|].
  destruct (at_dollar (slice_from (S k) s)) eqn:E.
  - intros [= <-]. repeat split.
    + pose proof (upper_run_le s). destruct s; simpl in *; [lia|discriminate].
    + exact (slice_to_all_upper (S k) s Hk).
    + exists (slice_from (S k) s). split; trivial.
      symmetry. exact (slice_to_from (S k) s).
  - apply IH. lia.
Qed.

Lemma search_upper_end_some (s g : string) :
  search_upper_end s = Some g ->
  g <> "" /\ all_upper g = true
  /\ exists pre rest, s = pre ++ g ++ rest /\ at_dollar rest = true.
Proof.
  revert g. induction s as [|c s IH]; intros g; cbn [search_upper_end].
  - destruct (match_here "") eqn:E; [|discriminate].
    intros [= <-]. apply match_backtrack_some in E as (H1 & H2 & rest & H3 & H4);
      trivial.
    repeat split; trivial. now exists "", rest.
  - destruct (match_here (String c s)) eqn:E.
    + intros [= <-].
      apply match_backtrack_some in E as (H1 & H2 & rest & H3 & H4); trivial.
      repeat split; trivial. now exists "", rest.
    + intros H. apply IH in H as (H1 & H2 & pre & rest & H3 & H4).
      repeat split; trivial. exists (String c pre), rest. split; trivial.
      simpl. now rewrite H3.
Qed.

Lemma ends_upper_app (pre g : string) :
  g <> "" -> all_upper g = true -> ends_upper (pre ++ g) = true.
Proof.
  intros Hne Hg.
  assert (Hg' : ends_upper g = true).
  { clear pre. induction g as [|c g IH]; [congruence|].
    simpl in Hg. apply andb_true_iff in Hg as [Hc Hg].
    destruct g as [|d g]; [exact Hc|].
    change (ends_upper (String c (String d g))) with (ends_upper (String d g)).
    apply IH; [discriminate|exact Hg]. }
  induction pre as [|c pre IH]; simpl; trivial.
  destruct (pre ++ g) eqn:E; trivial.
  destruct pre; simpl in E; [congruence|discriminate].
Qed.

Lemma search_upper_end_none (s : string) :
  ends_upper s = false ->
  (forall s', s = s' ++ line_feed -> ends_upper s' = false) ->
  search_upper_end s = None.
Proof.
  intros H1 H2. destruct (search_upper_end s) as [g|] eqn:E; trivial.
  apply search_upper_end_some in E as (Hne & Hg & pre & rest & Hs & Hd).
  destruct rest as [|d [|e rest]]; simpl in Hd; try discriminate.
  - rewrite app_empty_r in Hs. subst s.
    rewrite ends_upper_app in H1 by trivial. discriminate H1.
  - apply Ascii.eqb_eq in Hd. subst d.
    assert (X : ends_upper (pre ++ g) = false).
    { apply H2. rewrite Hs. unfold line_feed. now rewrite app_assoc_string. }
    rewrite ends_upper_app in X by trivial. discriminate X.
Qed.

(** C8, as the program has it. A text cell that ends in a run of capital
    letters yields that whole run, and so does a cell in which a single
    final line feed follows the run; every other text cell yields a
    missing value. The extraction is a total function: no cell makes it
    fail. *)
Theorem extraer_nacionalidad_trailing_token :
  (forall pre tok,
      ends_upper pre = false -> tok <> "" -> all_upper tok = true ->
      extraer_nacionalidad (Text (pre ++ tok)) = Text tok
      /\ extraer_nacionalidad (Text (pre ++ tok ++ line_feed)) = Text tok)
  /\ (forall s,
        ends_upper s = false ->
        (forall s', s = s' ++ line_feed -> ends_upper s' = false) ->
        extraer_nacionalidad (Text s) = NaN).
Proof.
  split.
  - intros pre tok Hpre Hne Htok. unfold extraer_nacionalidad. cbn [astype_str].
    split.
    + rewrite <- (app_empty_r tok) at 1.
      now rewrite search_upper_end_token.
    + now rewrite search_upper_end_token.
  - intros s H1 H2. unfold extraer_nacionalidad. cbn [astype_str].
    now rewrite search_upper_end_none.
Qed.

(* ================================================================== *)
(** * The merge *)
(* ================================================================== *)

Lemma mem_true_iff (x : string) (xs : list string) :
  mem x xs = true <-> In x xs.
Proof.
  unfold mem. rewrite existsb_exists. split.
  - intros [y [Hy E]]. apply String.eqb_eq in E. now subst.
  - intros H. exists x. split; trivial. apply String.eqb_refl.
Qed.

Lemma mem_false_iff (x : string) (xs : list string) :
  mem x xs = false <-> ~ In x xs.
Proof.
  rewrite <- mem_true_iff. destruct (mem x xs); split; congruence.
Qed.

Lemma first_column_cons (name : string) (c : string * list (cell num)) cs :
  first_column name (c :: cs)
  = if String.eqb name (fst c) then Some (snd c) else first_column name cs.
Proof.
  unfold first_column. simpl. now destruct (String.eqb name (fst c)).
Qed.

Lemma first_column_app (name : string) (xs ys : list (string * list (cell num))) :
  ~ In name (map fst xs) ->
  first_column name (xs ++ ys) = first_column name ys.
Proof.
  induction xs as [|c xs IH]; simpl; intros H; trivial.
  rewrite first_column_cons.
  destruct (String.eqb_spec name (fst c)) as [E|E].
  - exfalso. apply H. now left.
  - apply IH. intros Hin. apply H. now right.
Qed.

Lemma first_column_app_l (name : string) (xs ys : list (string * list (cell num))) v :
  first_column name xs = Some v -> first_column name (xs ++ ys) = Some v.
Proof.
  induction xs as [|c xs IH]; simpl; [discriminate|].
  rewrite !first_column_cons. destruct (String.eqb name (fst c)); trivial.
Qed.

Lemma first_column_map (name : string) (g : list (cell num) -> list (cell num)) cs :
  first_column name (map (fun c => (fst c, g (snd c))) cs)
  = option_map g (first_column name cs).
Proof.
  induction cs as [|c cs IH]; trivial.
  cbn [map]. rewrite !first_column_cons. cbn [fst snd].
  destruct (String.eqb name (fst c)); trivial.
Qed.

Lemma first_column_In (name : string) cs v :
  first_column name cs = Some v -> In name (map fst cs).
Proof.
  induction cs as [|c cs IH]; [discriminate|].
  rewrite first_column_cons. simpl.
  destruct (String.eqb_spec name (fst c)); auto.
Qed.

Lemma first_column_nth (name : string) cs v :
  first_column name cs = Some v -> exists i, nth_error cs i = Some (name, v).
Proof.
  induction cs as [|c cs IH]; [discriminate|].
  rewrite first_column_cons.
  destruct (String.eqb_spec name (fst c)) as [E|E].
  - intros [= <-]. exists 0. simpl. subst name. now destruct c.
  - intros H. destruct (IH H) as [i Hi]. now exists (S i).
Qed.

(** [keep_first] keeps the first column of every label not seen before. *)
Lemma keep_first_first_column (name : string) cs seen :
  mem name seen = false ->
  first_column name (keep_first seen cs) = first_column name cs.
Proof.
  revert seen. induction cs as [|c cs IH]; intros seen Hseen; trivial.
  cbn [keep_first]. rewrite (first_column_cons name c cs).
  destruct (mem (fst c) seen) eqn:Hc.
  - destruct (String.eqb_spec name (fst c)) as [E|E].
    + congruence.
    + now apply IH.
  - rewrite first_column_cons.
    destruct (String.eqb_spec name (fst c)) as [E|E]; trivial.
    apply IH. simpl. rewrite Hseen, orb_false_r.
    now apply String.eqb_neq.
Qed.

Lemma keep_first_labels cs seen :
  NoDup (map fst (keep_first seen cs))
  /\ forall x, In x (map fst (keep_first seen cs)) -> mem x seen = false.
Proof.
  revert seen. induction cs as [|c cs IH]; intros seen; cbn [keep_first].
  - split; [constructor | intros x []].
  - destruct (mem (fst c) seen) eqn:Hc; [apply IH|].
    destruct (IH (fst c :: seen)) as [Hnd Hout]. cbn [map]. split.
    + constructor; trivial. intros Hin. apply Hout in Hin.
      simpl in Hin. now rewrite String.eqb_refl in Hin.
    + intros x [<-|Hin]; trivial.
      apply Hout in Hin. simpl in Hin. now apply orb_false_iff in Hin.
Qed.

Lemma keep_first_incl cs seen c :
  In c (keep_first seen cs) -> In c cs.
Proof.
  revert seen. induction cs as [|d cs IH]; intros seen; cbn [keep_first]; trivial.
  destruct (mem (fst d) seen).
  - intros H. right. eauto.
  - intros [<-|H]; [now left|right; eauto].
Qed.

Lemma count_once (x : string) (l : list string) :
  NoDup l -> In x l -> List.length (filter (String.eqb x) l) = 1.
Proof.
  induction 1 as [|y l Hy Hl IH]; intros Hin; [destruct Hin|].
  simpl. destruct (String.eqb_spec x y) as [E|E].
  - subst y. simpl. f_equal.
    assert (F : filter (String.eqb x) l = []); [|now rewrite F].
    clear -Hy. induction l as [|z l IH]; trivial. simpl.
    destruct (String.eqb_spec x z) as [E|E].
    + subst. exfalso. apply Hy. now left.
    + apply IH. intros H. apply Hy. now right.
  - destruct Hin as [->|Hin]; [congruence|auto].
Qed.

Lemma concat_axis1_some (frames : list (DataFrame num)) :
  frames <> [] ->
  concat_axis1 frames
  = Some (mkFrame (list_max (map nrows frames))
            (flat_map
               (fun df => map (fun c => (fst c, pad (list_max (map nrows frames)) (snd c)))
                              (cols df))
               frames)).
Proof.
  destruct frames; [congruence|reflexivity].
Qed.

Lemma nrows_le_list_max (frames : list (DataFrame num)) (f : DataFrame num) :
  In f frames -> nrows f <= list_max (map nrows frames).
Proof.
  intros Hin.
  assert (H : Forall (fun k => k <= list_max (map nrows frames)) (map nrows frames)).
  { apply list_max_le. lia. }
  rewrite Forall_forall in H. apply H. now apply in_map.
Qed.

Lemma pad_length (n : nat) (vals : list (cell num)) :
  List.length vals <= n -> List.length (pad n vals) = n.
Proof.
  intros H. unfold pad. rewrite length_app, repeat_length. lia.
Qed.

Lemma pad_full (n : nat) (vals : list (cell num)) :
  List.length vals = n -> pad n vals = vals.
Proof.
  intros <-. unfold pad. rewrite Nat.sub_diag. apply app_nil_r.
Qed.

Lemma In_firstn {A : Type} (k : nat) (l : list A) (x : A) :
  In x (firstn k l) -> In x l.
Proof.
  intros H. rewrite <- (firstn_skipn k l). apply in_or_app. now left.
Qed.

Lemma In_skipn {A : Type} (k : nat) (l : list A) (x : A) :
  In x (skipn k l) -> In x l.
Proof.
  intros H. rewrite <- (firstn_skipn k l). apply in_or_app. now right.
Qed.

Lemma numeric_from_names (k : nat) (df : DataFrame num) :
  names (numeric_from k df) = names df.
Proof.
  unfold names, numeric_from. cbn [cols].
  rewrite map_app, map_map. cbn [fst].
  rewrite <- map_app. now rewrite firstn_skipn.
Qed.

Lemma nth_error_typed {A : Type} (g : A -> A) (k : nat) (l : list A) (i : nat) (c : A) :
  nth_error l i = Some c ->
  nth_error (firstn k l ++ map g (skipn k l))%list i
  = Some (if (i <? k)%nat then c else g c).
Proof.
  revert k i. induction l as [|a l IH]; intros k i H.
  - destruct i; discriminate.
  - destruct k as [|k].
    + cbn [firstn skipn app]. replace (i <? 0)%nat with false
        by (symmetry; apply Nat.ltb_ge; lia).
      now apply map_nth_error.
    + destruct i as [|i]; cbn [firstn skipn app nth_error] in *.
      * now injection H as ->.
      * change (S i <? S k)%nat with (i <? k)%nat. now apply IH.
Qed.

Lemma first_column_In_cols (name : string) (cs : list (string * list (cell num)))
  (vals : list (cell num)) :
  first_column name cs = Some vals -> exists label, In (label, vals) cs.
Proof.
  induction cs as [|[l v] cs IH]; [discriminate|].
  rewrite first_column_cons. cbn [fst snd].
  destruct (String.eqb name l).
  - intros [= <-]. exists l. now left.
  - intros H. destruct (IH H) as [label Hl]. exists label. now right.
Qed.

Lemma concat_first_column (n : nat) (before : list (DataFrame num))
  (df : DataFrame num) (after : list (DataFrame num))
  (name : string) (vals : list (cell num)) :
  (forall d, In d before -> ~ In name (names d)) ->
  first_column name (cols df) = Some vals ->
  first_column name
    (keep_first []
       (flat_map (fun d => map (fun c => (fst c, pad n (snd c))) (cols d))
                 (before ++ df :: after)))
  = Some (pad n vals).
Proof.
  intros Hbefore Hfirst. rewrite keep_first_first_column by reflexivity.
  rewrite flat_map_app. rewrite first_column_app.
  - cbn [flat_map]. apply first_column_app_l.
    rewrite (first_column_map name (pad n)). now rewrite Hfirst.
  - intros Hin. apply in_map_iff in Hin as [c [Ec Hc]].
    apply in_flat_map in Hc as [d [Hd Hc]].
    apply (Hbefore d Hd).
    apply in_map_iff in Hc as [c0 [<- Hc0]]. cbn [fst] in Ec. subst name.
    unfold names. now apply in_map.
Qed.

(** C1, as the program has it. The merge of a non-empty list of tables
    never reports an error, whatever their row counts. The unified table
    has as many rows as the longest input and pairwise distinct column
    names. For every column name, the first column of that name in the
    first input that has one is in the unified table, in full, followed by
    one missing value per row that input lacks, and converted to numbers
    when it stands at position 7 or later; the later columns of the name
    are dropped. The unified table has no other column. Nothing is
    truncated; shorter inputs are padded. *)
Theorem merge_frames_pads_shorter_tables (frames : list (DataFrame num)) :
  frames <> [] ->
  Forall aligned frames ->
  exists merged,
    merge_frames frames = Some merged
    /\ nrows merged = list_max (map nrows frames)
    /\ aligned merged
    /\ NoDup (names merged)
    /\ (forall before f after name vals,
          frames = (before ++ f :: after)%list ->
          (forall d, In d before -> ~ In name (names d)) ->
          first_column name (cols f) = Some vals ->
          List.length vals = nrows f
          /\ exists i,
               nth_error (cols merged) i
               = Some (name,
                       if (i <? 7)%nat
                       then (vals ++ repeat NaN (nrows merged - nrows f))%list
                       else map to_numeric
                              (vals ++ repeat NaN (nrows merged - nrows f))%list))
    /\ forall c, In c (cols merged) ->
        exists f c0,
          In f frames /\ In c0 (cols f) /\ fst c = fst c0
          /\ (snd c = (snd c0 ++ repeat NaN (nrows merged - nrows f))%list
              \/ snd c = map to_numeric
                           (snd c0 ++ repeat NaN (nrows merged - nrows f))%list).
Proof.
  intros Hne Hal.
  assert (Hnd : forall merged, merge_frames frames = Some merged ->
                               NoDup (names merged)).
  { intros merged H. unfold merge_frames in H.
    rewrite (concat_axis1_some frames Hne) in H. cbn [bind] in H.
    injection H as <-. rewrite numeric_from_names.
    unfold names, drop_duplicated. cbn [cols]. apply keep_first_labels. }
  unfold merge_frames.
  rewrite (concat_axis1_some frames Hne). cbn [bind].
  set (n := list_max (map nrows frames)).
  eexists. split; [reflexivity|]. cbn [numeric_from drop_duplicated nrows cols].
  assert (Hcols : forall c,
    In c (firstn 7 (keep_first [] (flat_map
            (fun df => map (fun c => (fst c, pad n (snd c))) (cols df)) frames))
          ++ map (fun c => (fst c, map to_numeric (snd c)))
               (skipn 7 (keep_first [] (flat_map
            (fun df => map (fun c => (fst c, pad n (snd c))) (cols df)) frames))))%list ->
    exists f c0,
      In f frames /\ In c0 (cols f) /\ fst c = fst c0
      /\ (snd c = (snd c0 ++ repeat NaN (n - nrows f))%list
          \/ snd c = map to_numeric (snd c0 ++ repeat NaN (n - nrows f))%list)).
  { intros c Hc.
    assert (Hsrc : forall c', In c' (keep_first [] (flat_map
            (fun df => map (fun c => (fst c, pad n (snd c))) (cols df)) frames)) ->
        exists f c0, In f frames /\ In c0 (cols f) /\ fst c' = fst c0
                     /\ snd c' = (snd c0 ++ repeat NaN (n - nrows f))%list).
    { intros c' Hc'. apply keep_first_incl in Hc'.
      apply in_flat_map in Hc' as [f [Hf Hc']].
      apply in_map_iff in Hc' as [c0 [<- Hc0]].
      exists f, c0. repeat split; trivial. cbn [snd]. unfold pad.
      rewrite Forall_forall in Hal. specialize (Hal f Hf).
      unfold aligned in Hal. rewrite Forall_forall in Hal.
      now rewrite (Hal c0 Hc0). }
    apply in_app_or in Hc as [Hc|Hc].
    - apply In_firstn in Hc.
      destruct (Hsrc c Hc) as (f & c0 & H1 & H2 & H3 & H4).
      exists f, c0. auto.
    - apply in_map_iff in Hc as [c' [<- Hc']]. apply In_skipn in Hc'.
      destruct (Hsrc c' Hc') as (f & c0 & H1 & H2 & H3 & H4).
      exists f, c0. cbn [fst snd]. rewrite H4. auto. }
  split; [reflexivity|]. split; [|split; [|split; [|exact Hcols]]].
  - unfold aligned, numeric_from, drop_duplicated. cbn [nrows cols].
    apply Forall_forall. intros c Hc.
    destruct (Hcols c Hc) as (f & c0 & Hf & Hc0 & _ & Hv).
    rewrite Forall_forall in Hal. specialize (Hal f Hf).
    unfold aligned in Hal. rewrite Forall_forall in Hal. specialize (Hal c0 Hc0).
    pose proof (nrows_le_list_max frames f Hf) as Hle. fold n in Hle.
    destruct Hv as [-> | ->]; rewrite ?length_map, length_app, repeat_length; lia.
  - apply Hnd. unfold merge_frames.
    rewrite (concat_axis1_some frames Hne). reflexivity.
  - intros before f after name vals Hsplit Hbefore Hfirst.
    assert (Hlen : List.length vals = nrows f).
    { destruct (first_column_In_cols _ _ _ Hfirst) as [label Hl].
      rewrite Forall_forall in Hal.
      assert (Hf : In f frames).
      { rewrite Hsplit. apply in_or_app. right. now left. }
      specialize (Hal f Hf). unfold aligned in Hal.
      rewrite Forall_forall in Hal. exact (Hal _ Hl). }
    split; [exact Hlen|].
    pose proof (concat_first_column n before f after name vals Hbefore Hfirst)
      as Hkept.
    rewrite <- Hsplit in Hkept.
    destruct (first_column_nth _ _ _ Hkept) as [i Hi]. exists i.
    rewrite (nth_error_typed _ 7 _ i _ Hi). cbn [fst snd].
    unfold pad. rewrite Hlen. now destruct (i <? 7)%nat.
Qed.

(** C2. Whenever a canonical name is carried by several input columns,
    the unified table has exactly one column of that name, and it holds
    the values of the first occurrence in input order: the first column
    of that name in the first table that has one. Those values are
    re-indexed on the rows of the unified table (unchanged when the table
    has as many rows) and, from position 7 on, converted to numbers. *)
Theorem merge_frames_keeps_first_occurrence
  (before : list (DataFrame num)) (df : DataFrame num) (after : list (DataFrame num))
  (name : string) (vals : list (cell num)) (merged : DataFrame num) :
  (forall d, In d before -> ~ In name (names d)) ->
  first_column name (cols df) = Some vals ->
  merge_frames (before ++ df :: after) = Some merged ->
  count_label name merged = 1
  /\ (exists i,
        nth_error (cols merged) i
        = Some (name,
                if (i <? 7)%nat then pad (nrows merged) vals
                else map to_numeric (pad (nrows merged) vals)))
  /\ (List.length vals = nrows merged -> pad (nrows merged) vals = vals).
Proof.
  intros Hbefore Hfirst Hmerge. unfold merge_frames in Hmerge.
  rewrite concat_axis1_some in Hmerge by (now destruct before).
  cbn [bind] in Hmerge. injection Hmerge as <-.
  set (n := list_max (map nrows (before ++ df :: after))).
  set (padded := fun d : DataFrame num =>
                   map (fun c => (fst c, pad n (snd c))) (cols d)).
  assert (Hcat : first_column name (flat_map padded (before ++ df :: after))
                 = Some (pad n vals)).
  { rewrite flat_map_app. rewrite first_column_app.
    - cbn [flat_map]. apply first_column_app_l. unfold padded.
      rewrite (first_column_map name (pad n)). now rewrite Hfirst.
    - intros Hin. apply in_map_iff in Hin as [c [Ec Hc]].
      apply in_flat_map in Hc as [d [Hd Hc]].
      apply (Hbefore d Hd). unfold padded in Hc.
      apply in_map_iff in Hc as [c0 [<- Hc0]]. cbn [fst] in Ec. subst name.
      unfold names. now apply in_map. }
  assert (Hkept : first_column name (keep_first [] (flat_map padded
                                     (before ++ df :: after)))
                  = Some (pad n vals)).
  { now rewrite keep_first_first_column. }
  repeat split.
  - unfold count_label. rewrite numeric_from_names.
    unfold names, drop_duplicated. cbn [cols].
    apply count_once.
    + apply keep_first_labels.
    + eapply first_column_In, Hkept.
  - destruct (first_column_nth _ _ _ Hkept) as [i Hi]. exists i.
    unfold numeric_from, drop_duplicated. cbn [cols nrows].
    rewrite (nth_error_typed _ 7 _ i _ Hi). cbn [fst snd].
    now destruct (i <? 7)%nat.
  - apply pad_full.
Qed.

(* ================================================================== *)
(** * Late numeric coercion *)
(* ================================================================== *)

Lemma re_sub_char_removes (c : ascii) (by_ s : string) :
  occurs c by_ = false -> occurs c (re_sub_char c by_ s) = false.
Proof.
  intros Hby. induction s as [|d s IH]; trivial.
  cbn [re_sub_char]. destruct (Ascii.eqb d c) eqn:E.
  - now rewrite occurs_app, Hby, IH.
  - cbn [occurs]. now rewrite E, IH.
Qed.

Lemma re_sub_char_keeps_out (c e : ascii) (by_ s : string) :
  occurs e by_ = false -> occurs e s = false ->
  occurs e (re_sub_char c by_ s) = false.
Proof.
  intros Hby. induction s as [|d s IH]; trivial.
  cbn [re_sub_char occurs]. intros H. apply orb_false_iff in H as [H1 H2].
  destruct (Ascii.eqb d c).
  - now rewrite occurs_app, Hby, IH.
  - cbn [occurs]. now rewrite H1, IH.
Qed.

Lemma assign_converted_distinct (start stop : nat) (df : DataFrame num) :
  NoDup (names df) ->
  assign_converted start stop df = Some (coerce_span start stop df).
Proof.
  intros Hnd. unfold assign_converted.
  replace (forallb _ _) with true; trivial.
  symmetry. apply forallb_forall. intros l Hl. apply Nat.eqb_eq.
  unfold count_label. apply count_once; trivial.
  unfold cols_convertir in Hl. apply In_firstn in Hl. now apply In_skipn in Hl.
Qed.

Lemma index_of_In (name : string) (labels : list string) :
  In name labels -> exists i, index_of name labels = Some i.
Proof.
  induction labels as [|l labels IH]; intros Hin; [destruct Hin|].
  cbn [index_of]. destruct (String.eqb_spec name l) as [E|E].
  - now exists 0.
  - destruct Hin as [->|Hin]; [congruence|].
    destruct (IH Hin) as [i ->]. now exists (S i).
Qed.

Lemma nth_error_mapi_from {A B : Type} (f : nat -> A -> B) (l : list A) (j0 k : nat) :
  nth_error (mapi_from j0 f l) k = option_map (f (j0 + k)) (nth_error l k).
Proof.
  revert j0 k. induction l as [|a l IH]; intros j0 [|k]; cbn [mapi_from nth_error option_map];
    trivial.
  - now rewrite Nat.add_0_r.
  - rewrite IH. now replace (S j0 + k) with (j0 + S k) by lia.
Qed.

Lemma coerce_span_nth (start stop : nat) (df : DataFrame num) (j : nat) name vals :
  nth_error (cols df) j = Some (name, vals) ->
  nth_error (cols (coerce_span start stop df)) j
  = Some (name, if ((start <=? j) && (j <? stop))%nat
                then map coerce_cell vals else vals).
Proof.
  intros H. unfold coerce_span. cbn [cols].
  rewrite nth_error_mapi_from, H. cbn [option_map Nat.add fst snd].
  now destruct ((start <=? j) && (j <? stop))%nat.
Qed.

(** C7, as the program has it. With a boundary label that names one
    column of a table with pairwise distinct labels, both conversions
    succeed and keep the labels and the row count. The goalkeeper variant
    coerces every column after the boundary; the outfield variant coerces
    the columns after the boundary except the last two of the table. A
    coerced text cell has its commas turned into dots and its percent
    signs removed, and is then parsed: it becomes the number read, or a
    missing value when the text is not a number (never a zero written in
    its place). Cells that are not texts keep their value. *)
Theorem convertir_columnas_numericas_coercion
  (df : DataFrame num) (columna_inicio : string) :
  NoDup (names df) ->
  In columna_inicio (names df) ->
  exists i porteros jugadores,
    index_of columna_inicio (names df) = Some i
    /\ convertir_columnas_numericas_goalkeepers df columna_inicio = Some porteros
    /\ convertir_columnas_numericas_jugadores df columna_inicio = Some jugadores
    /\ nrows porteros = nrows df
    /\ nrows jugadores = nrows df
    /\ (forall j name vals,
          nth_error (cols df) j = Some (name, vals) ->
          nth_error (cols porteros) j
          = Some (name, if (i <? j)%nat then map coerce_cell vals else vals)
          /\ nth_error (cols jugadores) j
             = Some (name,
                     if ((i <? j) && (j + 2 <? List.length (cols df)))%nat
                     then map coerce_cell vals else vals))
    /\ (forall s,
          let cleaned := re_sub_char "%"%char "" (re_sub_char ","%char "." s) in
          coerce_cell (Text s)
          = match parse_num cleaned with
            | Some n => Num n
            | None => NaN
            end
          /\ occurs ","%char cleaned = false
          /\ occurs "%"%char cleaned = false)
    /\ (forall n, coerce_cell (Num n) = Num n)
    /\ coerce_cell NaN = NaN.
Proof.
  intros Hnd Hin.
  destruct (index_of_In _ _ Hin) as [i Hi].
  assert (Hloc : get_loc columna_inicio df = Some i).
  { unfold get_loc, count_label. rewrite (count_once _ _ Hnd Hin). exact Hi. }
  exists i. eexists. eexists.
  unfold convertir_columnas_numericas_goalkeepers,
    convertir_columnas_numericas_jugadores. rewrite Hloc. cbn [bind].
  rewrite !(assign_converted_distinct _ _ _ Hnd).
  repeat split.
  - exact Hi.
  - rewrite (coerce_span_nth _ _ _ _ _ _ H). do 2 f_equal.
    assert (Hj : j < List.length (cols df)).
    { apply nth_error_Some. rewrite H. discriminate. }
    replace (i + 1 <=? j)%nat with (i <? j)%nat
      by (unfold Nat.ltb; now rewrite Nat.add_1_r).
    replace (j <? List.length (cols df))%nat with true
      by (symmetry; now apply Nat.ltb_lt).
    now rewrite andb_true_r.
  - rewrite (coerce_span_nth _ _ _ _ _ _ H). do 2 f_equal.
    replace (i + 1 <=? j)%nat with (i <? j)%nat
      by (unfold Nat.ltb; now rewrite Nat.add_1_r).
    f_equal.
    destruct (Nat.ltb_spec j (List.length (cols df) - 2));
      destruct (Nat.ltb_spec (j + 2) (List.length (cols df))); trivial; lia.
  - apply re_sub_char_keeps_out; trivial. now apply re_sub_char_removes.
  - now apply re_sub_char_removes.
Qed.

(* ================================================================== *)
(** * Table extraction *)
(* ================================================================== *)

Lemma dict_get_In {V : Type} (d : dict V) (k : string) (v : V) :
  dict_get d k = Some v -> In (k, v) d.
Proof.
  induction d as [|[k' v'] d IH]; [discriminate|].
  cbn [dict_get]. destruct (String.eqb_spec k k') as [->|E].
  - intros [= ->]. now left.
  - intros H. right. auto.
Qed.

Lemma other_leagues_urls (league season stat url : string) :
  league <> big5_league ->
  scrape_stats_player league season stat = Some url ->
  url <> "" /\ contains "Big5" url = false.
Proof.
  intros Hleague. unfold scrape_stats_player.
  destruct (dict_get player_urls league) as [league_data|] eqn:E1; [|discriminate].
  destruct (dict_get league_data season) as [season_data|] eqn:E2; [|discriminate].
  intros E3.
  apply dict_get_In in E1, E2, E3.
  assert (Hall : catalogue_urls_checked = true) by (vm_compute; reflexivity).
  unfold catalogue_urls_checked in Hall.
  rewrite forallb_forall in Hall. specialize (Hall _ E1). cbn [fst snd] in Hall.
  rewrite forallb_forall in Hall. specialize (Hall _ E2). cbn [snd] in Hall.
  rewrite forallb_forall in Hall. specialize (Hall _ E3). cbn [snd] in Hall.
  apply andb_true_iff in Hall as [Hne Hall]. split.
  - apply negb_true_iff in Hne. now apply String.eqb_neq.
  - apply orb_true_iff in Hall as [Hall|Hall].
    + apply String.eqb_eq in Hall. contradiction.
    + now apply negb_true_iff in Hall.
Qed.

Lemma extract_tables_other_league (w : Web num) (league season stat url : string) :
  league <> big5_league ->
  scrape_stats_player league season stat = Some url ->
  extract_tables w league season stat
  = match read_html w url with
    | None => (None, Some url)
    | Some _ => (fallback_strategy w league stat url, Some url)
    end.
Proof.
  intros Hleague Hurl. unfold extract_tables. rewrite Hurl.
  destruct (other_leagues_urls _ _ _ _ Hleague Hurl) as [Hne Hbig].
  rewrite Hbig.
  destruct (String.eqb_spec url "") as [E|_]; [contradiction|].
  destruct (read_html w url) as [[|t ts]|]; reflexivity.
Qed.


(** The failures the extraction handles before any table is built leave
    the table component absent. *)
Lemma extract_tables_early_failures (w : Web num) (league season stat url : string) :
  league <> big5_league ->
  scrape_stats_player league season stat = Some url ->
  read_html w url = None \/ comment_frame w url = None ->
  extract_tables w league season stat = (None, Some url).
Proof.
  intros Hleague Hurl H.
  rewrite (extract_tables_other_league _ _ _ _ _ Hleague Hurl).
  destruct (read_html w url); trivial.
  destruct H as [H|H]; [discriminate|].
  unfold fallback_strategy. now rewrite H.
Qed.

(** Once the frame of the comment table is built, a failing insertion of
    ['Comp'] is handled by returning that frame as it stands. *)
Lemma extract_tables_late_failure
  (w : Web num) (league season stat url : string) (raw : DataFrame num) :
  league <> big5_league ->
  scrape_stats_player league season stat = Some url ->
  read_html w url <> None ->
  comment_frame w url = Some raw ->
  insert 4 "Comp" (repeat (Text league) (nrows raw)) raw = None ->
  extract_tables w league season stat = (Some raw, Some url).
Proof.
  intros Hleague Hurl Hread Hraw Hins.
  rewrite (extract_tables_other_league _ _ _ _ _ Hleague Hurl).
  destruct (read_html w url); [|congruence].
  unfold fallback_strategy. rewrite Hraw.
  unfold finish_fallback, add_comp.
  destruct (String.eqb_spec league big5_league); [contradiction|].
  now rewrite Hins.
Qed.

(* ================================================================== *)
(** * The URL catalogue *)
(* ================================================================== *)

Lemma dict_get_map_entries {A B : Type} (h : string -> A -> B) (d : dict A)
  (k : string) :
  dict_get (map (fun e : string * A => let (key, v) := e in (key, h key v)) d) k
  = option_map (h k) (dict_get d k).
Proof.
  induction d as [|[k' v] d IH]; trivial.
  cbn [map dict_get]. destruct (String.eqb_spec k k') as [->|_]; trivial.
Qed.

Lemma dict_get_map_keys {B : Type} (h : string -> B) (keys : list string)
  (k : string) :
  dict_get (map (fun key => (key, h key)) keys) k
  = if mem k keys then Some (h k) else None.
Proof.
  induction keys as [|k' keys IH]; trivial.
  cbn [map dict_get mem existsb].
  destruct (String.eqb_spec k k') as [->|_]; trivial.
Qed.

(** X1. Looking a triple up in the generated catalogue succeeds exactly
    when the league is known, the season is one of its seasons and the
    statistic is a known table; the URL found is the one built from the
    league's id, the table's path, the season and the dashed league
    name. *)
Theorem scrape_stats_player_catalogue (league season stat : string) :
  scrape_stats_player league season stat
  = match get_league_info league, dict_get player_tables stat with
    | Some data, Some path =>
        if mem season (seasons data)
        then Some (player_url league (id data) path season)
        else None
    | _, _ => None
    end.
Proof.
  unfold scrape_stats_player, player_urls, generate_player_urls, get_league_info.
  rewrite (dict_get_map_entries
             (fun league_name league_data =>
                map (fun season =>
                       (season,
                        map (fun tbl : string * string =>
                               let (stat_name, path) := tbl in
                               (stat_name,
                                player_url league_name (id league_data) path season))
                            player_tables))
                    (seasons league_data))).
  destruct (dict_get possible_leagues league) as [data|]; trivial.
  cbn [option_map].
  rewrite (dict_get_map_keys
             (fun season =>
                map (fun tbl : string * string =>
                       let (stat_name, path) := tbl in
                       (stat_name, player_url league (id data) path season))
                    player_tables)).
  destruct (mem season (seasons data)).
  - rewrite (dict_get_map_entries
               (fun _ path => player_url league (id data) path season)).
    now destruct (dict_get player_tables stat).
  - now destruct (dict_get player_tables stat).
Qed.

Lemma scrape_stats_player_entry (league season stat url : string) :
  scrape_stats_player league season stat = Some url ->
  In ((league, season, stat), url) catalogue_entries.
Proof.
  unfold scrape_stats_player.
  destruct (dict_get player_urls league) as [league_data|] eqn:E1; [|discriminate].
  destruct (dict_get league_data season) as [season_data|] eqn:E2; [|discriminate].
  intros E3. apply dict_get_In in E1, E2, E3.
  unfold catalogue_entries.
  apply in_flat_map. exists (league, league_data). split; trivial.
  apply in_flat_map. exists (season, season_data). split; trivial.
  apply in_map_iff. exists (stat, url). now split.
Qed.

Lemma distinct_NoDup (xs : list string) : distinct xs = true -> NoDup xs.
Proof.
  induction xs as [|x xs IH]; intros H; constructor;
    cbn [distinct] in H; apply andb_true_iff in H as [H1 H2]; auto.
  apply negb_true_iff in H1. now apply mem_false_iff.
Qed.

Lemma NoDup_map_injective {A B : Type} (f : A -> B) (l : list A) (x y : A) :
  NoDup (map f l) -> In x l -> In y l -> f x = f y -> x = y.
Proof.
  induction l as [|a l IH]; intros Hnd Hx Hy E; [destruct Hx|].
  cbn [map] in Hnd. inversion Hnd as [|? ? Ha Hl]; subst.
  destruct Hx as [->|Hx], Hy as [->|Hy]; trivial.
  - exfalso. apply Ha. rewrite E. now apply in_map.
  - exfalso. apply Ha. rewrite <- E. now apply in_map.
  - now apply IH.
Qed.

(** X2. No two entries of the catalogue share a URL: a URL determines
    the league, the season and the statistic it was generated for. *)
Theorem scrape_stats_player_injective
  (league season stat league' season' stat' url : string) :
  scrape_stats_player league season stat = Some url ->
  scrape_stats_player league' season' stat' = Some url ->
  league = league' /\ season = season' /\ stat = stat'.
Proof.
  intros H H'. apply scrape_stats_player_entry in H, H'.
  assert (Hnd : NoDup (map snd catalogue_entries)).
  { apply distinct_NoDup. vm_compute. reflexivity. }
  pose proof (NoDup_map_injective snd _ _ _ Hnd H H' eq_refl) as E.
  now injection E as -> -> ->.
Qed.

(* ================================================================== *)
(** * Frames built from rows, and their clean-up *)
(* ================================================================== *)

Lemma frame_of_rows_aligned (data : list (list string)) (headings : list string)
  (df : DataFrame num) :
  frame_of_rows data headings = Some df -> aligned df.
Proof.
  unfold frame_of_rows. destruct data as [|row data].
  - intros [= <-]. unfold aligned. cbn [cols nrows].
    apply Forall_forall. intros c Hc.
    apply in_map_iff in Hc as [h [<- _]]. reflexivity.
  - destruct (_ =? _)%nat; [|discriminate]. intros [= <-].
    unfold aligned. cbn [cols nrows].
    apply Forall_forall. intros c Hc.
    apply in_map_iff in Hc as [hj [<- _]]. cbn [snd List.length].
    now rewrite length_map.
Qed.

Lemma select_length (mask : list bool) (vals : list (cell num)) :
  List.length vals = List.length mask ->
  List.length (select mask vals) = count_true mask.
Proof.
  revert vals. induction mask as [|b mask IH]; intros [|v vals] H;
    try discriminate; trivial.
  cbn [select count_true filter]. injection H as H.
  destruct b; cbn [List.length]; unfold count_true in IH; now rewrite IH.
Qed.

Lemma select_incl (mask : list bool) (vals : list (cell num)) (x : cell num) :
  In x (select mask vals) -> In x vals.
Proof.
  revert vals. induction mask as [|b mask IH]; intros [|v vals]; cbn [select];
    trivial; try (intros []).
  destruct b.
  - intros [->|H]; [now left | right; auto].
  - intros H. right. auto.
Qed.

Lemma select_filter (p : cell num -> bool) (m vals : list (cell num)) :
  select (map p m) vals
  = map snd (filter (fun pr => p (fst pr)) (combine m vals)).
Proof.
  revert vals. induction m as [|a m IH]; intros [|v vals]; trivial.
  cbn [map select combine filter fst]. destruct (p a); cbn [map snd];
    now rewrite IH.
Qed.

Lemma filter_filter {A : Type} (p q : A -> bool) (l : list A) :
  filter p (filter q l) = filter (fun x => p x && q x) l.
Proof.
  induction l as [|x l IH]; trivial. cbn [filter].
  destruct (q x) eqn:Hq; cbn [filter]; rewrite IH.
  - now rewrite andb_true_r.
  - now rewrite andb_false_r.
Qed.

Lemma filter_map_label {A B : Type} (p : string -> bool) (f : string * A -> B)
  (l : list (string * A)) :
  filter (fun c => p (fst c)) (map (fun c => (fst c, f c)) l)
  = map (fun c => (fst c, f c)) (filter (fun c => p (fst c)) l).
Proof.
  induction l as [|x l IH]; trivial. cbn [map filter fst].
  destruct (p (fst x)); cbn [map]; now rewrite IH.
Qed.

(** X4. The clean-up shared by both strategies is interrupted exactly on
    a frame without columns. Otherwise it returns the frame made of
    exactly the columns whose label contains neither ["rk"] nor
    ["matches"], in any letter case, in their order, each with exactly
    the cells of the rows whose first cell (the cell of the first column
    of the frame) is not the text ['Rk'], in their order; an aligned
    frame stays aligned and no missing cell appears. *)
Theorem clean_table_spec (df : DataFrame num) :
  (cols df = [] <-> clean_table df = Handled df)
  /\ (forall first rest,
        cols df = first :: rest ->
        exists r,
          clean_table df = Returned r
          /\ cols r
             = map (fun c =>
                      (fst c,
                       map snd (filter (fun pr => cell_ne "Rk" (fst pr))
                                       (combine (snd first) (snd c)))))
                   (filter (fun c => negb (contains_nocase "Rk" (fst c))
                                     && negb (contains_nocase "matches" (fst c)))
                           (cols df))
          /\ nrows r = count_true (map (cell_ne "Rk") (snd first))
          /\ (forall label,
                In label (names r)
                <-> In label (names df)
                    /\ contains_nocase "Rk" label = false
                    /\ contains_nocase "matches" label = false)
          /\ (aligned df -> aligned r)
          /\ (no_missing df -> no_missing r)).
Proof.
  unfold clean_table, drop_header_rows. split.
  - destruct (cols df); split; trivial; discriminate.
  - intros first rest E.
    exists (drop_columns_containing "Rk" (drop_columns_containing "matches"
              (filter_rows (map (cell_ne "Rk") (snd first)) df))).
    split; [now rewrite E|].
    unfold drop_columns_containing, filter_rows. cbn [nrows cols].
    split.
    { rewrite filter_filter.
      rewrite (filter_map_label
                 (fun l => negb (contains_nocase "Rk" l)
                           && negb (contains_nocase "matches" l))
                 (fun c => select (map (cell_ne "Rk") (snd first)) (snd c))).
      apply map_ext. intros c. now rewrite select_filter. }
    split; [reflexivity|]. split; [|split].
    + intros label. unfold names. cbn [cols]. rewrite in_map_iff. split.
      * intros [c [<- Hc]]. apply filter_In in Hc as [Hc H1].
        apply filter_In in Hc as [Hc H2].
        apply in_map_iff in Hc as [c0 [<- Hc0]]. cbn [fst] in *.
        apply negb_true_iff in H1, H2. repeat split; trivial.
        now apply in_map.
      * intros (Hin & H1 & H2). apply in_map_iff in Hin as [c0 [<- Hc0]].
        exists (fst c0, select (map (cell_ne "Rk") (snd first)) (snd c0)).
        split; trivial.
        apply filter_In. cbn [fst]. rewrite H1. split; trivial.
        apply filter_In. cbn [fst]. rewrite H2. split; trivial.
        apply in_map_iff. now exists c0.
    + unfold aligned. cbn [nrows cols]. rewrite !Forall_forall.
      intros Hal c Hc. apply filter_In in Hc as [Hc _].
      apply filter_In in Hc as [Hc _].
      apply in_map_iff in Hc as [c0 [<- Hc0]]. cbn [snd].
      apply select_length. rewrite length_map.
      rewrite (Hal c0 Hc0). symmetry. apply Hal. rewrite E. now left.
    + unfold no_missing. cbn [cols]. rewrite !Forall_forall.
      intros Hnm c Hc. apply filter_In in Hc as [Hc _].
      apply filter_In in Hc as [Hc _].
      apply in_map_iff in Hc as [c0 [<- Hc0]]. cbn [snd].
      split; intros Hin; apply select_incl in Hin;
        destruct (Hnm c0 Hc0); auto.
Qed.

(* ================================================================== *)
(** * Invariants of extracted tables *)
(* ================================================================== *)

Lemma catalogue_url_nonempty (league season stat url : string) :
  scrape_stats_player league season stat = Some url -> url <> "".
Proof.
  unfold scrape_stats_player.
  destruct (dict_get player_urls league) as [league_data|] eqn:E1; [|discriminate].
  destruct (dict_get league_data season) as [season_data|] eqn:E2; [|discriminate].
  intros E3. apply dict_get_In in E1, E2, E3.
  assert (Hall : catalogue_urls_checked = true) by (vm_compute; reflexivity).
  unfold catalogue_urls_checked in Hall.
  rewrite forallb_forall in Hall. specialize (Hall _ E1). cbn [fst snd] in Hall.
  rewrite forallb_forall in Hall. specialize (Hall _ E2). cbn [snd] in Hall.
  rewrite forallb_forall in Hall. specialize (Hall _ E3). cbn [snd] in Hall.
  apply andb_true_iff in Hall as [Hne _].
  apply negb_true_iff in Hne. now apply String.eqb_neq.
Qed.

Lemma big5_url_mentions_big5 (season stat url : string) :
  scrape_stats_player big5_league season stat = Some url ->
  contains "Big5" url = true.
Proof.
  intros H. apply scrape_stats_player_entry in H.
  assert (Hall : big5_urls_checked = true) by (vm_compute; reflexivity).
  unfold big5_urls_checked in Hall. rewrite forallb_forall in Hall.
  specialize (Hall _ H). cbn [fst snd] in Hall.
  rewrite String.eqb_refl in Hall. cbn [negb orb] in Hall.
  now apply andb_true_iff in Hall as [Hall _].
Qed.

(** X5. The URL returned by the extraction is always the catalogue's
    answer for the triple, whatever the site does. A triple outside the
    catalogue gives no table; and when [read_html] raises, no table is
    returned for any league: the comment strategy is not attempted. *)
Theorem extract_tables_url_and_early_exit
  (w : Web num) (league season stat : string) :
  snd (extract_tables w league season stat)
  = scrape_stats_player league season stat
  /\ (scrape_stats_player league season stat = None ->
      fst (extract_tables w league season stat) = None)
  /\ (forall url,
        scrape_stats_player league season stat = Some url ->
        read_html w url = None ->
        extract_tables w league season stat = (None, Some url)).
Proof.
  unfold extract_tables.
  destruct (scrape_stats_player league season stat) as [url|] eqn:Hurl.
  - pose proof (catalogue_url_nonempty _ _ _ _ Hurl) as Hne.
    destruct (String.eqb_spec url "") as [E|_]; [contradiction|].
    repeat split.
    + destruct (read_html w url) as [tables|]; trivial.
      now destruct (contains "Big5" url), tables.
    + discriminate.
    + intros url' [= <-] Hread. now rewrite Hread.
  - repeat split; discriminate.
Qed.

(** X6. For the combined league the first table read by [read_html] is
    the one returned, flattened and cleaned: the comments of the page are
    not consulted and no ['Comp'] column is added. *)
Theorem extract_tables_big5_uses_first_table
  (w : Web num) (season stat url : string)
  (first_table : RawFrame num) (others : list (RawFrame num)) :
  scrape_stats_player big5_league season stat = Some url ->
  read_html w url = Some (first_table :: others) ->
  extract_tables w big5_league season stat
  = (Some (ending_frame
             (clean_table
                (format_dataframe_columns (raw_fillna0 first_table) stat))),
     Some url).
Proof.
  intros Hurl Hread. unfold extract_tables. rewrite Hurl.
  pose proof (catalogue_url_nonempty _ _ _ _ Hurl) as Hne.
  destruct (String.eqb_spec url "") as [E|_]; [contradiction|].
  now rewrite Hread, (big5_url_mentions_big5 _ _ _ Hurl).
Qed.

Lemma fillna0_no_missing {L : Type} (df : Frame num L) : no_missing (fillna0 df).
Proof.
  unfold no_missing, fillna0, map_cells. cbn [cols].
  apply Forall_forall. intros c Hc.
  apply in_map_iff in Hc as [c0 [<- _]]. cbn [snd].
  split; intros Hin; apply in_map_iff in Hin as [x [Hx _]];
    destruct x; discriminate.
Qed.

Lemma fillna0_aligned {L : Type} (df : Frame num L) :
  aligned df -> aligned (fillna0 df).
Proof.
  unfold aligned, fillna0, map_cells. cbn [cols nrows].
  rewrite !Forall_forall. intros H c Hc.
  apply in_map_iff in Hc as [c0 [<- Hc0]]. cbn [snd].
  rewrite length_map. auto.
Qed.

Lemma format_no_missing (t : RawFrame num) (stat : string) :
  no_missing (format_dataframe_columns (raw_fillna0 t) stat).
Proof.
  destruct t as [f|f]; cbn [raw_fillna0 format_dataframe_columns];
    pose proof (fillna0_no_missing f) as H; unfold no_missing in *;
    cbn [cols]; rewrite Forall_forall in *; intros c Hc;
    apply in_map_iff in Hc as [c0 [<- Hc0]]; cbn [snd]; auto.
Qed.

Lemma format_aligned (t : RawFrame num) (stat : string) :
  raw_aligned t -> aligned (format_dataframe_columns t stat).
Proof.
  destruct t as [f|f]; cbn [raw_aligned format_dataframe_columns];
    unfold aligned; cbn [cols nrows]; rewrite !Forall_forall; intros H c Hc;
    apply in_map_iff in Hc as [c0 [<- Hc0]]; cbn [snd]; auto.
Qed.

Lemma format_flat_no_missing (df : DataFrame num) (stat : string) :
  no_missing df -> no_missing (format_dataframe_columns (FlatFrame df) stat).
Proof.
  unfold no_missing. cbn [format_dataframe_columns cols].
  rewrite !Forall_forall. intros H c Hc.
  apply in_map_iff in Hc as [c0 [<- Hc0]]. cbn [snd]. auto.
Qed.

Lemma clean_table_no_missing (df : DataFrame num) :
  no_missing df -> no_missing (ending_frame (clean_table df)).
Proof.
  intros H. unfold clean_table, drop_header_rows.
  destruct (cols df) as [|first rest] eqn:E; cbn [ending_frame]; trivial.
  unfold no_missing, drop_columns_containing, filter_rows in *. cbn [cols].
  rewrite Forall_forall in *. intros c Hc.
  apply filter_In in Hc as [Hc _]. apply filter_In in Hc as [Hc _].
  apply in_map_iff in Hc as [c0 [<- Hc0]]. cbn [snd].
  split; intros Hin; apply select_incl in Hin; destruct (H c0 Hc0); auto.
Qed.

Lemma clean_table_aligned (df : DataFrame num) :
  aligned df -> aligned (ending_frame (clean_table df)).
Proof.
  intros H. unfold clean_table, drop_header_rows.
  destruct (cols df) as [|first rest] eqn:E; cbn [ending_frame]; trivial.
  unfold aligned, drop_columns_containing, filter_rows in *. cbn [nrows cols].
  rewrite Forall_forall in *. intros c Hc.
  apply filter_In in Hc as [Hc _]. apply filter_In in Hc as [Hc _].
  apply in_map_iff in Hc as [c0 [<- Hc0]]. cbn [snd].
  apply select_length. rewrite length_map.
  rewrite (H c0 Hc0). symmetry. apply H. rewrite E. now left.
Qed.

Lemma comment_frame_some (w : Web num) (url : string) (raw : DataFrame num) :
  comment_frame w url = Some raw ->
  exists data headings df,
    frame_of_rows data headings = Some df /\ raw = fillna0 df.
Proof.
  unfold comment_frame.
  destruct (get_comments w url) as [cs|]; [|discriminate].
  destruct (find _ cs) as [c|]; [|discriminate].
  destruct (comment_table c) as [t|]; [|discriminate].
  destruct (tbody t) as [data|]; [|discriminate].
  destruct (frame_of_rows data (th_scope_col t)) as [df|] eqn:E; [|discriminate].
  intros [= <-]. now exists data, (th_scope_col t), df.
Qed.

Lemma add_comp_some (league : string) (df withcomp : DataFrame num) :
  add_comp league df = Some withcomp ->
  (no_missing df -> no_missing withcomp)
  /\ (aligned df -> aligned withcomp).
Proof.
  unfold add_comp, insert. destruct (String.eqb league big5_league).
  - intros [= <-]. auto.
  - destruct (mem "Comp" (names df)); [discriminate|].
    destruct (4 <=? List.length (cols df))%nat; [|discriminate].
    intros [= <-]. unfold no_missing, aligned. cbn [cols nrows]. split.
    + intros H. rewrite <- (firstn_skipn 4 (cols df)) in H.
      apply Forall_app in H as [H1 H2].
      apply Forall_app. split; trivial. constructor; trivial. cbn [snd].
      split; intros Hin; apply repeat_spec in Hin; discriminate.
    + intros H. rewrite <- (firstn_skipn 4 (cols df)) in H.
      apply Forall_app in H as [H1 H2].
      apply Forall_app. split; trivial. constructor; trivial. cbn [snd].
      apply repeat_length.
Qed.

Lemma extract_tables_no_missing
  (w : Web num) (league season stat : string) (df : DataFrame num) :
  fst (extract_tables w league season stat) = Some df -> no_missing df.
Proof.
  unfold extract_tables.
  destruct (scrape_stats_player league season stat) as [url|]; [|discriminate].
  destruct (String.eqb url ""); [discriminate|].
  destruct (read_html w url) as [tables|]; [|discriminate].
  assert (Hfb : fst (fallback_strategy w league stat url, Some url) = Some df ->
                no_missing df).
  { cbn [fst]. unfold fallback_strategy.
    destruct (comment_frame w url) as [raw|] eqn:Hraw; [|discriminate].
    intros [= <-].
    apply comment_frame_some in Hraw as (data & headings & df0 & _ & ->).
    unfold finish_fallback.
    destruct (add_comp league (fillna0 df0)) as [df1|] eqn:Hadd;
      cbn [ending_frame].
    - apply clean_table_no_missing, format_flat_no_missing.
      apply (proj1 (add_comp_some _ _ _ Hadd)), fillna0_no_missing.
    - apply fillna0_no_missing. }
  destruct (contains "Big5" url); [destruct tables as [|t ts]|]; trivial.
  cbn [fst]. intros [= <-]. unfold direct_strategy.
  apply clean_table_no_missing, format_no_missing.
Qed.

Lemma extract_tables_aligned
  (w : Web num) (league season stat : string) (df : DataFrame num) :
  aligned_web w ->
  fst (extract_tables w league season stat) = Some df -> aligned df.
Proof.
  intros Hweb. unfold extract_tables.
  destruct (scrape_stats_player league season stat) as [url|]; [|discriminate].
  destruct (String.eqb url ""); [discriminate|].
  destruct (read_html w url) as [tables|] eqn:Hread; [|discriminate].
  assert (Hfb : fst (fallback_strategy w league stat url, Some url) = Some df ->
                aligned df).
  { cbn [fst]. unfold fallback_strategy.
    destruct (comment_frame w url) as [raw|] eqn:Hraw; [|discriminate].
    intros [= <-].
    apply comment_frame_some in Hraw as (data & headings & df0 & Hrows & ->).
    assert (Hal : aligned (fillna0 df0)).
    { apply fillna0_aligned. exact (frame_of_rows_aligned _ _ _ Hrows). }
    unfold finish_fallback.
    destruct (add_comp league (fillna0 df0)) as [df1|] eqn:Hadd;
      cbn [ending_frame]; trivial.
    apply clean_table_aligned.
    apply (format_aligned (FlatFrame df1)). cbn [raw_aligned].
    now apply (proj2 (add_comp_some _ _ _ Hadd)). }
  destruct (contains "Big5" url); [destruct tables as [|t ts]|]; trivial.
  cbn [fst]. intros [= <-]. unfold direct_strategy.
  apply clean_table_aligned, format_aligned.
  assert (Ht : raw_aligned t) by (apply (Hweb url (t :: ts) t Hread); now left).
  destruct t as [f|f]; cbn [raw_fillna0 raw_aligned] in *;
    now apply fillna0_aligned.
Qed.

(** X7. No table returned by the extraction has a missing cell, on any
    path (direct or comment strategy, returned normally or by an
    exception handler): missing cells were replaced by zeros and nothing
    done afterwards brings one back. Every column of a returned table
    has one cell per row, provided the tables [read_html] gives have; the
    tables taken from comments need no such proviso, short rows having
    been completed. *)
Theorem extract_tables_well_formed
  (w : Web num) (league season stat : string) (df : DataFrame num) :
  fst (extract_tables w league season stat) = Some df ->
  no_missing df /\ (aligned_web w -> aligned df).
Proof.
  intros H. split.
  - exact (extract_tables_no_missing w league season stat df H).
  - intros Hweb. exact (extract_tables_aligned w league season stat df Hweb H).
Qed.





(* ================================================================== *)
(** * Text cleaning of [formatear_datos] *)
(* ================================================================== *)

Lemma split_first_free (c : ascii) (s : string) :
  occurs c (split_first c s) = false.
Proof.
  induction s as [|d s IH]; trivial.
  cbn [split_first]. destruct (Ascii.eqb d c) eqn:E; trivial.
  cbn [occurs]. now rewrite E, IH.
Qed.

Lemma split_first_whole (c : ascii) (s : string) :
  occurs c s = false -> split_first c s = s.
Proof.
  induction s as [|d s IH]; trivial.
  cbn [occurs split_first]. intros H. apply orb_false_iff in H as [H1 H2].
  now rewrite H1, IH.
Qed.

(** X8. The age clean-up keeps the text before the first dash: a cell
    ["<years>-<days>"] becomes ["<years>"], a text without a dash is kept
    whole, a missing cell held as [NaN] becomes the text ["nan"] and one
    held as [None] the text ["None"]. The result is always a text, never
    missing, and holds no dash. *)
Theorem extraer_edad_spec :
  (forall years days,
      occurs "-"%char years = false ->
      extraer_edad (Text (years ++ "-" ++ days)) = Text years)
  /\ (forall s, occurs "-"%char s = false -> extraer_edad (Text s) = Text s)
  /\ extraer_edad NaN = Text "nan"
  /\ extraer_edad Null = Text "None"
  /\ (forall c, exists t, extraer_edad c = Text t /\ occurs "-"%char t = false).
Proof.
  unfold extraer_edad. repeat split.
  - intros years days H. cbn [astype_str].
    change (years ++ "-" ++ days) with (years ++ String "-" days).
    now rewrite split_first_app.
  - intros s H. cbn [astype_str]. now rewrite split_first_whole.
  - intros c. eexists. split; [reflexivity|]. apply split_first_free.
Qed.

Lemma dot_plus_whole (s : string) :
  occurs newline s = false -> dot_plus s = s.
Proof.
  induction s as [|d s IH]; trivial.
  cbn [occurs dot_plus]. intros H. apply orb_false_iff in H as [H1 H2].
  now rewrite H1, IH.
Qed.

Lemma search_space_rest_none (s : string) :
  any_space s = false -> search_space_rest s = None.
Proof.
  induction s as [|c s IH]; trivial.
  cbn [any_space search_space_rest]. intros H.
  apply orb_false_iff in H as [H1 H2]. rewrite H1. auto.
Qed.

(** X9. The competition clean-up keeps what follows the first white
    space: ["<rank> <name>"] becomes ["<name>"] when the rank holds no
    white space and the name is a non-empty single line. A cell without
    any white space, such as a bare one-word league name, becomes
    missing. *)
Theorem extraer_competicion_spec :
  (forall rank name,
      any_space rank = false -> name <> "" -> occurs newline name = false ->
      extraer_competicion (Text (rank ++ " " ++ name)) = Text name)
  /\ (forall s, any_space s = false -> extraer_competicion (Text s) = NaN).
Proof.
  unfold extraer_competicion. cbn [astype_str]. split.
  - intros rank name Hrank Hne Hnl.
    change (rank ++ " " ++ name) with (rank ++ String " " name).
    induction rank as [|c rank IH].
    + cbn [append search_space_rest].
      change (is_space " ") with true. cbn iota.
      rewrite (dot_plus_whole name Hnl). now destruct name.
    + cbn [any_space] in Hrank. apply orb_false_iff in Hrank as [H1 H2].
      cbn [append search_space_rest]. rewrite H1. auto.
  - intros s H. now rewrite search_space_rest_none.
Qed.

(** X10. Whatever the cell, the nationality clean-up gives a missing
    value or a non-empty text made of capital letters only. *)
Theorem extraer_nacionalidad_sound (c : cell num) :
  extraer_nacionalidad c = NaN
  \/ exists tok,
       extraer_nacionalidad c = Text tok /\ tok <> "" /\ all_upper tok = true.
Proof.
  unfold extraer_nacionalidad.
  destruct (search_upper_end (astype_str c)) as [g|] eqn:E; [right|now left].
  apply search_upper_end_some in E as (H1 & H2 & _). now exists g.
Qed.

Lemma clean_column_once (name : string) (f g : list (cell num) -> list (cell num))
  (cs : list (string * list (cell num))) (vals : list (cell num)) :
  List.length (filter (String.eqb name) (map fst cs)) = 1 ->
  first_column name cs = Some vals ->
  map (fun c => if String.eqb name (fst c) then (fst c, f vals) else c) cs
  = map (fun c => if String.eqb name (fst c) then (fst c, f (snd c)) else c) cs.
Proof.
  induction cs as [|c cs IH]; trivial.
  cbn [map filter]. rewrite first_column_cons.
  destruct (String.eqb name (fst c)) eqn:E.
  - cbn [List.length]. intros Hc [= <-]. f_equal.
    injection Hc as Hc. apply length_zero_iff_nil in Hc.
    apply map_ext_in. intros d Hd.
    destruct (String.eqb name (fst d)) eqn:Ed; trivial.
    assert (Hin : In (fst d) (filter (String.eqb name) (map fst cs))).
    { apply filter_In. split; trivial. now apply in_map. }
    rewrite Hc in Hin. destruct Hin.
  - intros Hc Hf. f_equal. now apply IH.
Qed.

Lemma count_label_mem (name : string) (df : DataFrame num) :
  mem name (names df) = false <-> count_label name df = 0.
Proof using Type.
  unfold count_label. generalize (names df) as l.
  induction l as [|x l IH]; cbn [mem existsb filter]; [split; reflexivity|].
  fold (mem name l). destruct (String.eqb name x); cbn [orb List.length].
  - split; discriminate.
  - exact IH.
Qed.

Lemma first_column_present (name : string) (cs : list (string * list (cell num))) :
  In name (map fst cs) -> exists vals, first_column name cs = Some vals.
Proof.
  induction cs as [|c cs IH]; intros Hin; [destruct Hin|].
  rewrite first_column_cons.
  destruct (String.eqb_spec name (fst c)) as [E|E].
  - now exists (snd c).
  - destruct Hin as [Hin|Hin]; [congruence|auto].
Qed.

Lemma clean_column_spec (name : string) (f : cell num -> cell num)
  (df : DataFrame num) :
  clean_column name f df
  = if (count_label name df <=? 1)%nat
    then Some (mkFrame (nrows df)
                 (map (fun c => if String.eqb name (fst c)
                                then (fst c, map f (snd c)) else c)
                      (cols df)))
    else None.
Proof.
  unfold clean_column, series.
  destruct (mem name (names df)) eqn:Hmem.
  - destruct (Nat.eqb_spec (count_label name df) 1) as [E|E].
    + rewrite E. cbn [Nat.leb].
      apply mem_true_iff in Hmem.
      destruct (first_column_present name (cols df) Hmem) as [vals Hv].
      rewrite Hv. cbn [bind]. unfold set_column.
      rewrite (proj2 (mem_true_iff _ _) Hmem). do 2 f_equal.
      now apply (clean_column_once name (map f) (map f)).
    + cbn [bind].
      destruct (Nat.leb_spec (count_label name df) 1) as [Hle|]; trivial.
      assert (H0 : count_label name df = 0) by lia.
      apply count_label_mem in H0. congruence.
  - pose proof (proj1 (count_label_mem name df) Hmem) as H0. rewrite H0.
    cbn [Nat.leb]. destruct df as [n cs]. cbn [nrows cols]. do 2 f_equal.
    symmetry. rewrite <- (map_id cs) at 2. apply map_ext_in. intros c Hc.
    destruct (String.eqb_spec name (fst c)) as [->|]; trivial.
    exfalso. apply mem_false_iff in Hmem. apply Hmem.
    unfold names. cbn [cols]. now apply in_map.
Qed.

Lemma count_after_clean (name other : string) (f : cell num -> cell num)
  (n : nat) (cs : list (string * list (cell num))) :
  count_label other
    (mkFrame n (map (fun c => if String.eqb name (fst c)
                              then (fst c, map f (snd c)) else c) cs))
  = count_label other (mkFrame n cs).
Proof.
  unfold count_label, names. cbn [cols]. rewrite map_map. do 2 f_equal.
  apply map_ext. intros c. now destruct (String.eqb name (fst c)).
Qed.

(** X11. After renaming, [formatear_datos] fails exactly when one of
    the labels ['Nacionalidad'], ['Edad'], ['Competicion'] is carried by
    two or more columns. Otherwise it returns the renamed table with the
    same rows and labels, in which the cells of those three columns have
    gone through their clean-up and every other column is untouched. *)
Theorem formatear_datos_spec (df : DataFrame num) :
  formatear_datos df
  = if ((count_label "Nacionalidad" (rename_columns df) <=? 1)
        && (count_label "Edad" (rename_columns df) <=? 1)
        && (count_label "Competicion" (rename_columns df) <=? 1))%nat
    then Some (mkFrame (nrows df)
                 (map (fun c => (fst c, limpiar_columna (fst c) (snd c)))
                      (cols (rename_columns df))))
    else None.
Proof.
  unfold formatear_datos. rewrite clean_column_spec.
  destruct (count_label "Nacionalidad" (rename_columns df) <=? 1)%nat;
    [|reflexivity].
  cbn [bind andb]. rewrite clean_column_spec, count_after_clean.
  replace (mkFrame (nrows (rename_columns df)) (cols (rename_columns df)))
    with (rename_columns df) by now destruct (rename_columns df).
  destruct (count_label "Edad" (rename_columns df) <=? 1)%nat; [|reflexivity].
  cbn [bind andb nrows cols]. rewrite clean_column_spec. cbn [nrows cols].
  rewrite !count_after_clean.
  replace (mkFrame (nrows (rename_columns df)) (cols (rename_columns df)))
    with (rename_columns df) by now destruct (rename_columns df).
  destruct (count_label "Competicion" (rename_columns df) <=? 1)%nat;
    [|reflexivity].
  do 2 f_equal. rewrite !map_map. apply map_ext. intros [label vals].
  unfold limpiar_columna. cbn [fst snd].
  destruct (String.eqb_spec "Nacionalidad" label) as [<-|]; cbn [fst snd];
    [reflexivity|].
  destruct (String.eqb_spec "Edad" label) as [<-|]; cbn [fst snd];
    [reflexivity|].
  destruct (String.eqb_spec "Competicion" label) as [<-|]; reflexivity.
Qed.

(* ================================================================== *)
(** * Position decomposition on a frame *)
(* ================================================================== *)

Lemma count_label_app (name : string) (n : nat)
  (cs ds : list (string * list (cell num))) :
  count_label name (mkFrame n (cs ++ ds))
  = count_label name (mkFrame n cs) + count_label name (mkFrame n ds).
Proof.
  unfold count_label, names. cbn [cols].
  now rewrite map_app, filter_app, length_app.
Qed.

Lemma set_column_absent (name : string) (vals : list (cell num))
  (df : DataFrame num) :
  ~ In name (names df) ->
  set_column name vals df = mkFrame (nrows df) (cols df ++ [(name, vals)]).
Proof.
  intros H. unfold set_column. now rewrite (proj2 (mem_false_iff _ _) H).
Qed.

(** X12. [procesar_posiciones] fails when the position label does not
    name exactly one column. On a table that has neither
    ['Posicion_principal'] nor ['Posicion_2'] and whose position column
    holds a text (or has no row, so that the [.str] accessor applies), it
    otherwise removes the position column and appends those two columns,
    in that order, after all the others, which are left as they were;
    each new cell is the decomposition of the position text of its row,
    and missing where the position is not a text. *)
Theorem procesar_posiciones_spec (df : DataFrame num) (columna : string) :
  (count_label columna df <> 1 -> procesar_posiciones df columna = None)
  /\ (count_label columna df = 1 ->
      ~ In "Posicion_principal" (names df) ->
      ~ In "Posicion_2" (names df) ->
      (forall vals, first_column columna (cols df) = Some vals ->
                    vals = [] \/ exists s, In (Text s) vals) ->
      exists vals,
        first_column columna (cols df) = Some vals
        /\ procesar_posiciones df columna
           = Some (mkFrame (nrows df)
                     (filter (fun c => negb (String.eqb columna (fst c))) (cols df)
                      ++ [ ("Posicion_principal", map (on_text posicion_principal) vals);
                           ("Posicion_2", map (on_text posicion_2) vals) ]))).
Proof.
  unfold procesar_posiciones, str_series. split.
  - intros H. unfold series. apply Nat.eqb_neq in H. now rewrite H.
  - intros Hc Hpp Hp2 Htext.
    assert (Hin : In columna (names df)).
    { destruct (mem columna (names df)) eqn:E; [now apply mem_true_iff|].
      apply count_label_mem in E. lia. }
    destruct (first_column_present columna (cols df) Hin) as [vals Hv].
    exists vals. split; trivial.
    assert (Hacc : str_accessor vals = true).
    { unfold str_accessor. destruct (Htext vals Hv) as [->|[s Hs]]; trivial.
      apply orb_true_iff. left. apply existsb_exists.
      now exists (Text s). }
    assert (Hne1 : String.eqb columna "Posicion_principal" = false).
    { apply String.eqb_neq. intros ->. contradiction. }
    assert (Hne2 : String.eqb columna "Posicion_2" = false).
    { apply String.eqb_neq. intros ->. contradiction. }
    unfold series at 1. rewrite Hc. cbn [Nat.eqb]. rewrite Hv.
    cbn [bind]. rewrite Hacc. cbn [bind]. cbv zeta.
    rewrite (set_column_absent "Posicion_principal" _ df Hpp).
    unfold series.
    replace (count_label columna (mkFrame (nrows df) (cols df ++ _))) with 1.
    2:{ rewrite count_label_app.
        replace (mkFrame (nrows df) (cols df)) with df by now destruct df.
        rewrite Hc. unfold count_label, names. cbn [cols map fst filter].
        now rewrite Hne1. }
    cbn [Nat.eqb cols]. rewrite (first_column_app_l _ _ _ _ Hv). cbn [bind].
    rewrite Hacc. cbn [bind].
    rewrite set_column_absent.
    2:{ unfold names. cbn [cols]. rewrite map_app. intros H.
        apply in_app_or in H as [H|H]; [contradiction|].
        cbn in H. destruct H as [H|[]]. discriminate. }
    cbn [nrows cols].
    replace (mem columna (names (mkFrame (nrows df) ((cols df ++ _) ++ _))))
      with true.
    2:{ symmetry. apply mem_true_iff. unfold names. cbn [cols].
        rewrite !map_app. apply in_or_app. left. apply in_or_app. now left. }
    unfold drop_columns_named. cbn [nrows cols]. do 2 f_equal.
    rewrite <- app_assoc. rewrite filter_app. f_equal.
    cbn [app filter fst]. now rewrite Hne1, Hne2.
Qed.

(* ================================================================== *)
(** * Labels and types of a merged table *)
(* ================================================================== *)

Lemma merge_frames_some (frames : list (DataFrame num)) (merged : DataFrame num) :
  merge_frames frames = Some merged ->
  frames <> []
  /\ merged
     = numeric_from 7
         (drop_duplicated
            (mkFrame (list_max (map nrows frames))
               (flat_map
                  (fun df => map (fun c => (fst c, pad (list_max (map nrows frames)) (snd c)))
                                 (cols df))
                  frames))).
Proof.
  unfold merge_frames. destruct frames as [|f frames]; [discriminate|].
  rewrite concat_axis1_some by discriminate. cbn [bind].
  intros [= <-]. split; [discriminate|reflexivity].
Qed.

Lemma merge_frames_NoDup (frames : list (DataFrame num)) (merged : DataFrame num) :
  merge_frames frames = Some merged -> NoDup (names merged).
Proof.
  intros H. apply merge_frames_some in H as [_ ->].
  rewrite numeric_from_names. unfold names, drop_duplicated. cbn [cols].
  apply keep_first_labels.
Qed.

(** X13. The labels of a merged table are pairwise distinct, and they
    are exactly the labels that occur in some input table. *)
Theorem merge_frames_labels (frames : list (DataFrame num)) (merged : DataFrame num) :
  merge_frames frames = Some merged ->
  NoDup (names merged)
  /\ forall name,
       In name (names merged) <-> exists f, In f frames /\ In name (names f).
Proof.
  intros H. apply merge_frames_some in H as [_ ->].
  rewrite numeric_from_names. unfold names, drop_duplicated. cbn [cols].
  split; [apply keep_first_labels|].
  intros name. split.
  - intros Hin. apply in_map_iff in Hin as [c [<- Hc]].
    apply keep_first_incl in Hc. apply in_flat_map in Hc as [f [Hf Hc]].
    apply in_map_iff in Hc as [c0 [<- Hc0]]. exists f. split; trivial.
    cbn [fst]. now apply in_map.
  - intros [f [Hf Hin]].
    assert (Hcat : In name (map fst (flat_map
              (fun df => map (fun c => (fst c, pad (list_max (map nrows frames)) (snd c)))
                             (cols df)) frames))).
    { apply in_map_iff in Hin as [c0 [<- Hc0]].
      apply in_map_iff. exists (fst c0, pad (list_max (map nrows frames)) (snd c0)).
      split; trivial. apply in_flat_map. exists f. split; trivial.
      apply in_map_iff. now exists c0. }
    destruct (first_column_present _ _ Hcat) as [vals Hv].
    rewrite <- (keep_first_first_column name _ []) in Hv by reflexivity.
    exact (first_column_In _ _ _ Hv).
Qed.

Lemma to_numeric_not_text (c : cell num) (s : string) : to_numeric c <> Text s.
Proof.
  destruct c as [t|n| |]; cbn [to_numeric]; try discriminate.
  destruct (parse_num t); discriminate.
Qed.

(** X14. In a merged table no text is left from position 7 on: every
    cell there is a number or missing. The first seven columns are not
    converted. *)
Theorem merge_frames_types (frames : list (DataFrame num)) (merged : DataFrame num) :
  merge_frames frames = Some merged ->
  (forall j label vals,
      nth_error (cols merged) j = Some (label, vals) -> 7 <= j ->
      forall x s, In x vals -> x <> Text s)
  /\ exists concatenated,
       concat_axis1 frames = Some concatenated
       /\ firstn 7 (cols merged) = firstn 7 (cols (drop_duplicated concatenated)).
Proof.
  intros H. apply merge_frames_some in H as [Hne ->]. split.
  - intros j label vals Hj Hle x s Hx.
    unfold numeric_from in Hj. cbn [cols] in Hj.
    rewrite nth_error_app2 in Hj
      by (etransitivity; [apply firstn_le_length|exact Hle]).
    apply nth_error_In in Hj. apply in_map_iff in Hj as [c [Ec _]].
    injection Ec as _ <-. apply in_map_iff in Hx as [y [<- _]].
    apply to_numeric_not_text.
  - eexists. split; [apply (concat_axis1_some frames Hne)|].
    unfold numeric_from. cbn [cols].
    rewrite firstn_app, firstn_firstn, Nat.min_id.
    replace (7 - List.length (firstn 7 _)) with
      (7 - List.length (firstn 7 (keep_first []
         (flat_map (fun df => map (fun c => (fst c, pad (list_max (map nrows frames)) (snd c)))
                                  (cols df)) frames)))) by reflexivity.
    set (l := keep_first [] _).
    destruct (Nat.le_gt_cases 7 (List.length l)) as [Hl|Hl].
    + rewrite firstn_length_le by exact Hl. cbn [Nat.sub firstn].
      apply app_nil_r.
    + rewrite (skipn_all2 l) by lia. cbn [map]. rewrite firstn_nil.
      apply app_nil_r.
Qed.

(* ================================================================== *)
(** * The playing-time table *)
(* ================================================================== *)



(* ================================================================== *)
(** * Repeating the late coercion *)
(* ================================================================== *)

Lemma coerce_cell_idempotent (c : cell num) :
  coerce_cell (coerce_cell c) = coerce_cell c.
Proof.
  unfold coerce_cell. destruct c as [s|n| |]; cbn [replace_separators to_numeric];
    trivial.
  now destruct (parse_num _).
Qed.

Lemma mapi_from_compose {A B C : Type} (f : nat -> B -> C) (g : nat -> A -> B)
  (l : list A) (j : nat) :
  mapi_from j f (mapi_from j g l) = mapi_from j (fun k x => f k (g k x)) l.
Proof.
  revert j. induction l as [|a l IH]; intros j; cbn [mapi_from]; trivial.
  now rewrite IH.
Qed.

Lemma mapi_from_ext {A B : Type} (f g : nat -> A -> B) (l : list A) (j : nat) :
  (forall k x, f k x = g k x) -> mapi_from j f l = mapi_from j g l.
Proof.
  intros H. revert j. induction l as [|a l IH]; intros j; cbn [mapi_from]; trivial.
  now rewrite H, IH.
Qed.

Lemma mapi_from_fst {A : Type} (f : nat -> string * A -> string * A)
  (l : list (string * A)) (j : nat) :
  (forall k x, fst (f k x) = fst x) -> map fst (mapi_from j f l) = map fst l.
Proof.
  intros H. revert j. induction l as [|a l IH]; intros j; cbn [mapi_from map];
    trivial.
  now rewrite H, IH.
Qed.

Lemma coerce_span_names (start stop : nat) (df : DataFrame num) :
  names (coerce_span start stop df) = names df.
Proof.
  unfold names, coerce_span. cbn [cols]. apply mapi_from_fst.
  intros k x. now destruct ((start <=? k) && (k <? stop))%nat.
Qed.

Lemma coerce_span_width (start stop : nat) (df : DataFrame num) :
  List.length (cols (coerce_span start stop df)) = List.length (cols df).
Proof.
  rewrite <- (length_map fst), <- (length_map fst (cols df)).
  exact (f_equal (@List.length string) (coerce_span_names start stop df)).
Qed.

Lemma coerce_span_idempotent (start stop : nat) (df : DataFrame num) :
  coerce_span start stop (coerce_span start stop df) = coerce_span start stop df.
Proof.
  unfold coerce_span. cbn [nrows cols]. f_equal.
  rewrite mapi_from_compose. apply mapi_from_ext. intros k x.
  destruct ((start <=? k) && (k <? stop))%nat eqn:E; trivial.
  cbn [fst snd]. f_equal. rewrite map_map. apply map_ext.
  apply coerce_cell_idempotent.
Qed.

(** X16. On a table whose labels are pairwise distinct, both late
    conversions fail when the boundary label names no column, and both
    are idempotent: the converted table has the same, pairwise distinct
    labels, and converting it again, with the same boundary, changes
    nothing. *)
Theorem convertir_columnas_numericas_idempotent
  (df : DataFrame num) (columna_inicio : string) :
  NoDup (names df) ->
  (count_label columna_inicio df <> 1 ->
   ~ In columna_inicio (names df)
   /\ convertir_columnas_numericas_goalkeepers df columna_inicio = None
   /\ convertir_columnas_numericas_jugadores df columna_inicio = None)
  /\ (~ In columna_inicio (names df) ->
      convertir_columnas_numericas_goalkeepers df columna_inicio = None
      /\ convertir_columnas_numericas_jugadores df columna_inicio = None)
  /\ (forall r,
        convertir_columnas_numericas_goalkeepers df columna_inicio = Some r ->
        NoDup (names r)
        /\ convertir_columnas_numericas_goalkeepers r columna_inicio = Some r)
  /\ (forall r,
        convertir_columnas_numericas_jugadores df columna_inicio = Some r ->
        NoDup (names r)
        /\ convertir_columnas_numericas_jugadores r columna_inicio = Some r).
Proof.
  intros Hnd.
  unfold convertir_columnas_numericas_goalkeepers,
    convertir_columnas_numericas_jugadores, get_loc.
  split; [|split; [|split]].
  - intros H. split.
    + intros Hin. apply H. unfold count_label. now apply count_once.
    + apply Nat.eqb_neq in H. rewrite H. now split.
  - intros H. apply mem_false_iff, count_label_mem in H. rewrite H. now split.
  - intros r. destruct (count_label columna_inicio df =? 1)%nat eqn:Hc;
      [|discriminate].
    destruct (index_of columna_inicio (names df)) as [i|] eqn:Hi; [|discriminate].
    cbn [bind]. rewrite (assign_converted_distinct _ _ _ Hnd).
    intros [= <-].
    assert (Hnd' : NoDup (names (coerce_span (i + 1) (List.length (cols df)) df)))
      by now rewrite coerce_span_names.
    split; [exact Hnd'|].
    unfold count_label.
    rewrite coerce_span_names. fold (count_label columna_inicio df).
    rewrite Hc, Hi. cbn [bind]. rewrite (assign_converted_distinct _ _ _ Hnd').
    f_equal.
    replace (List.length (cols (coerce_span (i + 1) (List.length (cols df)) df)))
      with (List.length (cols df)).
    + apply coerce_span_idempotent.
    + symmetry. apply coerce_span_width.
  - intros r. destruct (count_label columna_inicio df =? 1)%nat eqn:Hc;
      [|discriminate].
    destruct (index_of columna_inicio (names df)) as [i|] eqn:Hi; [|discriminate].
    cbn [bind]. rewrite (assign_converted_distinct _ _ _ Hnd).
    intros [= <-].
    assert (Hnd' : NoDup (names (coerce_span (i + 1)
                                   (List.length (cols df) - 2) df)))
      by now rewrite coerce_span_names.
    split; [exact Hnd'|].
    unfold count_label.
    rewrite coerce_span_names. fold (count_label columna_inicio df).
    rewrite Hc, Hi. cbn [bind]. rewrite (assign_converted_distinct _ _ _ Hnd').
    f_equal.
    replace (List.length (cols (coerce_span (i + 1) (List.length (cols df) - 2) df)))
      with (List.length (cols df)).
    + apply coerce_span_idempotent.
    + symmetry. apply coerce_span_width.
Qed.

(* ================================================================== *)
(** * The two builders *)
(* ================================================================== *)

Lemma clean_column_aligned (name : string) (f : cell num -> cell num)
  (df r : DataFrame num) :
  aligned df -> clean_column name f df = Some r -> aligned r.
Proof.
  intros Hal. rewrite clean_column_spec.
  destruct (_ <=? _)%nat; [|discriminate]. intros [= <-].
  unfold aligned in *. cbn [nrows cols]. rewrite Forall_forall in *.
  intros c Hc. apply in_map_iff in Hc as [c0 [<- Hc0]].
  destruct (String.eqb name (fst c0)); cbn [snd]; rewrite ?length_map; auto.
Qed.

Lemma formatear_datos_aligned (df r : DataFrame num) :
  aligned df -> formatear_datos df = Some r -> aligned r.
Proof.
  intros Hal. unfold formatear_datos.
  destruct (clean_column "Nacionalidad" _ _) as [d1|] eqn:E1; [|discriminate].
  cbn [bind]. destruct (clean_column "Edad" _ d1) as [d2|] eqn:E2; [|discriminate].
  cbn [bind]. intros E3.
  apply (clean_column_aligned _ _ _ _) in E1.
  - apply (clean_column_aligned _ _ _ _ E1) in E2.
    exact (clean_column_aligned _ _ _ _ E2 E3).
  - unfold aligned, rename_columns in *. cbn [nrows cols].
    rewrite Forall_forall in *. intros c Hc.
    apply in_map_iff in Hc as [c0 [<- Hc0]]. cbn [snd]. auto.
Qed.

Lemma playingtime_aligned (w : Web num) (r : DataFrame num) :
  aligned_web w ->
  obtener_foramtear_playingtime_jugadores w = Some r -> aligned r.
Proof.
  intros Hweb. unfold obtener_foramtear_playingtime_jugadores.
  destruct (fst (extract_tables w big5_league "2024-2025" "Playing Time"))
    as [df|] eqn:Hdf; [|discriminate].
  pose proof (extract_tables_aligned w _ _ _ df Hweb Hdf) as Hal.
  cbn [bind]. destruct (series mp_playing_time df) as [mp|] eqn:Hmp;
    [|discriminate].
  cbn [bind]. intros [= <-].
  assert (Hlen : List.length mp = nrows df).
  { unfold series in Hmp.
    destruct (count_label mp_playing_time df =? 1)%nat; [|discriminate].
    apply first_column_In_cols in Hmp as [label Hl].
    unfold aligned in Hal. rewrite Forall_forall in Hal.
    exact (Hal _ Hl). }
  unfold aligned, filter_rows. cbn [nrows cols].
  apply Forall_forall. intros c Hc.
  apply in_map_iff in Hc as [c0 [<- Hc0]]. cbn [snd].
  apply select_length. rewrite !length_map, Hlen.
  unfold set_column in Hc0.
  unfold aligned in Hal. rewrite Forall_forall in Hal.
  destruct (mem mp_playing_time (names df)); cbn [cols] in Hc0.
  - apply in_map_iff in Hc0 as [c1 [<- Hc1]].
    destruct (String.eqb mp_playing_time (fst c1)); cbn [snd]; auto.
    now rewrite !length_map.
  - apply in_app_or in Hc0 as [Hc0|[<-|[]]]; auto.
    cbn [snd]. now rewrite !length_map.
Qed.

Lemma merge_frames_aligned (frames : list (DataFrame num)) (merged : DataFrame num) :
  Forall aligned frames -> merge_frames frames = Some merged -> aligned merged.
Proof.
  intros Hal H. apply merge_frames_some in H as [_ ->].
  set (n := list_max (map nrows frames)).
  assert (Hsrc : forall c, In c (keep_first [] (flat_map
            (fun df => map (fun c => (fst c, pad n (snd c))) (cols df)) frames)) ->
          List.length (snd c) = n).
  { intros c Hc. apply keep_first_incl in Hc.
    apply in_flat_map in Hc as [f [Hf Hc]].
    apply in_map_iff in Hc as [c0 [<- Hc0]]. cbn [snd].
    apply pad_length. rewrite Forall_forall in Hal. specialize (Hal f Hf).
    unfold aligned in Hal. rewrite Forall_forall in Hal.
    rewrite (Hal c0 Hc0). now apply nrows_le_list_max. }
  unfold aligned, numeric_from, drop_duplicated. cbn [nrows cols].
  apply Forall_forall. intros c Hc. apply in_app_or in Hc as [Hc|Hc].
  - apply Hsrc. eapply In_firstn, Hc.
  - apply in_map_iff in Hc as [c0 [<- Hc0]]. cbn [snd]. rewrite length_map.
    apply Hsrc. eapply In_skipn, Hc0.
Qed.

Lemma fetch_formatted_some (w : Web num) (league stat : string) (f : DataFrame num) :
  aligned_web w ->
  fetch_formatted w league stat = Some f ->
  fst (extract_tables w league "2024-2025" stat) <> None /\ aligned f.
Proof.
  intros Hweb. unfold fetch_formatted.
  destruct (fst (extract_tables w league "2024-2025" stat)) as [t|] eqn:Ht;
    [|discriminate].
  cbn [bind]. intros Hf. split; [discriminate|].
  apply (formatear_datos_aligned t f); trivial.
  exact (extract_tables_aligned w _ _ _ t Hweb Ht).
Qed.

(** X17. The goalkeeper build returns a table only when both of its
    extractions returned one. The table then has pairwise distinct
    labels and, the tables read from the site being well formed, one
    cell per row in every column. *)
Theorem creacion_df_porteros_fbref_spec
  (w : Web num) (league : string) (df : DataFrame num) :
  aligned_web w ->
  creacion_df_porteros_fbref w league = Some df ->
  fst (extract_tables w league "2024-2025" "Goalkeeping") <> None
  /\ fst (extract_tables w league "2024-2025" "Advanced Goalkeeping") <> None
  /\ NoDup (names df)
  /\ aligned df.
Proof.
  intros Hweb. unfold creacion_df_porteros_fbref.
  destruct (fetch_formatted w league "Goalkeeping") as [f1|] eqn:E1;
    [|discriminate].
  destruct (fetch_formatted w league "Advanced Goalkeeping") as [f2|] eqn:E2;
    [|discriminate].
  cbn [bind]. intros Hm.
  destruct (fetch_formatted_some _ _ _ _ Hweb E1) as [H1 A1].
  destruct (fetch_formatted_some _ _ _ _ Hweb E2) as [H2 A2].
  repeat split; trivial.
  - exact (merge_frames_NoDup _ _ Hm).
  - apply (merge_frames_aligned _ _ (Forall_cons _ A1 (Forall_cons _ A2 (Forall_nil _))) Hm).
Qed.

(** X18. The general build returns a table only when the extraction of
    each of its eight statistics for the league, and that of the playing
    time of the combined league, returned one. The table then has
    pairwise distinct labels and, the tables read from the site being
    well formed, one cell per row in every column. *)
Theorem creacion_df_general_fbref_spec
  (w : Web num) (league : string) (df : DataFrame num) :
  aligned_web w ->
  creacion_df_general_fbref w league = Some df ->
  (forall stat, In stat general_stats ->
                fst (extract_tables w league "2024-2025" stat) <> None)
  /\ fst (extract_tables w big5_league "2024-2025" "Playing Time") <> None
  /\ NoDup (names df)
  /\ aligned df.
Proof.
  intros Hweb. unfold creacion_df_general_fbref.
  destruct (fetch_formatted w league "Standard Stats") as [f1|] eqn:E1; [|discriminate].
  destruct (fetch_formatted w league "Shooting") as [f2|] eqn:E2; [|discriminate].
  destruct (fetch_formatted w league "Passing") as [f3|] eqn:E3; [|discriminate].
  destruct (fetch_formatted w league "Pass Types") as [f4|] eqn:E4; [|discriminate].
  destruct (fetch_formatted w league "Goal and Shot Creation") as [f5|] eqn:E5;
    [|discriminate].
  destruct (fetch_formatted w league "Defensive Actions") as [f6|] eqn:E6;
    [|discriminate].
  destruct (fetch_formatted w league "Possession") as [f7|] eqn:E7; [|discriminate].
  destruct (fetch_formatted w league "Miscellaneous Stats") as [f8|] eqn:E8;
    [|discriminate].
  cbn [bind].
  destruct (obtener_foramtear_playingtime_jugadores w) as [pt|] eqn:Ept;
    [|discriminate].
  cbn [bind]. destruct (formatear_datos pt) as [f9|] eqn:E9; [|discriminate].
  cbn [bind]. intros Hm.
  destruct (fetch_formatted_some _ _ _ _ Hweb E1) as [H1 A1].
  destruct (fetch_formatted_some _ _ _ _ Hweb E2) as [H2 A2].
  destruct (fetch_formatted_some _ _ _ _ Hweb E3) as [H3 A3].
  destruct (fetch_formatted_some _ _ _ _ Hweb E4) as [H4 A4].
  destruct (fetch_formatted_some _ _ _ _ Hweb E5) as [H5 A5].
  destruct (fetch_formatted_some _ _ _ _ Hweb E6) as [H6 A6].
  destruct (fetch_formatted_some _ _ _ _ Hweb E7) as [H7 A7].
  destruct (fetch_formatted_some _ _ _ _ Hweb E8) as [H8 A8].
  pose proof (formatear_datos_aligned _ _ (playingtime_aligned _ _ Hweb Ept) E9) as A9.
  split; [|split; [|split]].
  - intros stat Hin. unfold general_stats in Hin. cbn [In] in Hin.
    repeat (destruct Hin as [<-|Hin]; [assumption|]). destruct Hin.
  - unfold obtener_foramtear_playingtime_jugadores in Ept.
    destruct (fst (extract_tables w big5_league "2024-2025" "Playing Time"));
      discriminate.
  - exact (merge_frames_NoDup _ _ Hm).
  - apply (merge_frames_aligned _ _) in Hm; trivial.
    repeat (constructor; [assumption|]). constructor.
Qed.

End Pipeline.

Arguments names {num L} df.
Arguments format_dataframe_columns {num} df stat_category.
Arguments procesar_posiciones {num} df columna.
Arguments extract_tables {num} num_zero w league season stat.
Arguments comment_frame {num} num_zero w url.
Arguments finish_fallback {num} league stat df.
Arguments merge_frames {num} parse_num frames.
Arguments extraer_nacionalidad {num} num_repr c.
Arguments convertir_columnas_numericas_goalkeepers {num} parse_num df columna_inicio.
Arguments convertir_columnas_numericas_jugadores {num} parse_num df columna_inicio.
Arguments coerce_cell {num} parse_num c.
Arguments to_numeric {num} parse_num c.
Arguments pad {num} n vals.
Arguments count_label {num} name df.
Arguments first_column {num} name cs.
Arguments aligned {num L} df.
Arguments insert {num} loc column value df.
Arguments clean_table {num} df.
Arguments frame_of_rows {num} data headings.
Arguments no_missing {num L} df.
Arguments aligned_web {num} w.
Arguments raw_fillna0 {num} num_zero df.
Arguments extraer_edad {num} num_repr c.
Arguments extraer_competicion {num} num_repr c.
Arguments formatear_datos {num} num_repr df.
Arguments concat_axis1 {num} frames.
Arguments drop_duplicated {num} df.
Arguments obtener_foramtear_playingtime_jugadores {num} num_zero parse_num ge_one w.
Arguments creacion_df_general_fbref {num} num_zero num_repr parse_num ge_one w league.
Arguments creacion_df_porteros_fbref {num} num_zero num_repr parse_num w league.

(** ** The merge on tables of unequal length *)

(** C1 does not hold as stated: merging a table of one row with a table
    of two rows reports no error; the short table is padded with missing
    values. *)
Lemma merge_frames_unequal_rows_no_error :
  nrows tabla_corta = 1 /\ nrows tabla_larga = 2
  /\ merge_frames parse_digits [tabla_corta; tabla_larga] = Some tabla_unida
  /\ cols tabla_unida = [ ("Player", [Text "Pedri"; NaN]);
                          ("Equipo", [Text "Barcelona"; NaN]);
                          ("Goles", [Text "4"; Text "1"]) ].
Proof.
  repeat split.
Qed.

Lemma merge_frames_pads_shorter_tables_witness :
  [tabla_corta; tabla_larga] <> []
  /\ Forall aligned [tabla_corta; tabla_larga]
  /\ exists merged,
       merge_frames parse_digits [tabla_corta; tabla_larga] = Some merged
       /\ nrows merged = 2
       /\ NoDup (names merged)
       /\ exists i,
            nth_error (cols merged) i
            = Some ("Player",
                    if (i <? 7)%nat
                    then ([Text "Pedri"]
                          ++ repeat NaN (nrows merged - nrows tabla_corta))%list
                    else map (to_numeric parse_digits)
                           ([Text "Pedri"]
                            ++ repeat NaN (nrows merged - nrows tabla_corta))%list).
Proof.
  assert (Hne : [tabla_corta; tabla_larga] <> []) by discriminate.
  assert (Hal : Forall aligned [tabla_corta; tabla_larga]).
  { repeat constructor. }
  split; [exact Hne|]. split; [exact Hal|].
  destruct (merge_frames_pads_shorter_tables Z parse_digits
              [tabla_corta; tabla_larga] Hne Hal)
    as (merged & H1 & H2 & _ & H4 & H5 & _).
  exists merged. split; [exact H1|]. split; [exact H2|]. split; [exact H4|].
  refine (proj2 (H5 [] tabla_corta [tabla_larga] "Player" [Text "Pedri"]
                    eq_refl _ eq_refl)).
  intros d [].
Defined.

Lemma merge_frames_keeps_first_occurrence_witness :
  first_column "Player" (cols tabla_corta) = Some [Text "Pedri"]
  /\ merge_frames parse_digits [tabla_corta; tabla_larga] = Some tabla_unida
  /\ count_label "Player" tabla_unida = 1.
Proof.
  split; [reflexivity|]. split; [reflexivity|].
  apply (merge_frames_keeps_first_occurrence Z parse_digits
           [] tabla_corta [tabla_larga] "Player" [Text "Pedri"]).
  - intros d [].
  - reflexivity.
  - reflexivity.
Defined.

(** ** Positions *)

(** C3 does not hold as stated: the secondary position of ["DF"] is the
    empty text. *)
Lemma procesar_posiciones_empty_secondary :
  procesar_posiciones tabla_posiciones "Posicion"
  = Some (mkFrame 2 [ ("Player", [Text "Pedri"; Text "Araujo"]);
                      ("Posicion_principal", [Text "Midfielder"; Text "Defender"]);
                      ("Posicion_2", [Text "Forward"; Text ""]) ]).
Proof.
  reflexivity.
Qed.

Lemma posiciones_decomposition_witness :
  slice_from 3 "GK" = ""
  /\ posicion_2 "GK" = ""
  /\ limpiar_posicion_2 (posicion_2 "GK") = no_encontrado.
Proof.
  split; [reflexivity|].
  destruct posiciones_decomposition as (_ & _ & _ & _ & H & _).
  apply (H "GK"). reflexivity.
Defined.

(** ** Flattening *)

(** C5 does not hold as stated: two columns with the same label give the
    same key twice, and both columns are kept. *)
Lemma format_dataframe_columns_keeps_colliding_keys :
  format_dataframe_columns tabla_cabecera_repetida "Standard Stats"
  = mkFrame 1 [ ("Gls (Standard Stats)", [Text "10"]);
                ("Gls (Standard Stats)", [Text "3"]) ].
Proof.
  reflexivity.
Qed.

Lemma plain_labels_tabla_dos_niveles :
  Forall plain_labels (names tabla_dos_niveles).
Proof.
  repeat constructor.
Defined.

Lemma format_dataframe_columns_keeps_every_column_witness :
  Forall plain_labels (names tabla_dos_niveles)
  /\ (NoDup (names (format_dataframe_columns (TwoLevelFrame tabla_dos_niveles)
                      "Standard Stats"))
      <-> NoDup (names tabla_dos_niveles)).
Proof.
  split; [exact plain_labels_tabla_dos_niveles|].
  exact (proj2 (format_dataframe_columns_keeps_every_column Z
                  (TwoLevelFrame tabla_dos_niveles) "Standard Stats")
               plain_labels_tabla_dos_niveles).
Defined.

Lemma flatten_then_rederive_witness :
  Forall plain_labels (names tabla_dos_niveles)
  /\ map rederive_key
       (names (format_dataframe_columns (TwoLevelFrame tabla_dos_niveles)
                 "Standard Stats"))
     = [ ("Performance", "Gls"); ("Performance", "Ast") ].
Proof.
  split; [exact plain_labels_tabla_dos_niveles|].
  exact (flatten_then_rederive Z tabla_dos_niveles "Standard Stats"
           plain_labels_tabla_dos_niveles).
Defined.

(** ** Late numeric coercion *)

(** C7 does not hold as stated: the outfield variant leaves the last two
    columns of the table as they are, although they come after the
    boundary column; the goalkeeper variant coerces them. *)
Lemma convertir_jugadores_skips_last_two_columns :
  convertir_columnas_numericas_jugadores parse_digits tabla_jugadores "Competicion"
  = Some (mkFrame 1 [ ("Player", [Text "Pedri"]);
                      ("Competicion", [Text "La Liga"]);
                      ("Goles", [Num 4%Z]);
                      ("% Pases completados", [Num 88%Z]);
                      ("Posicion_principal", [Text "Midfielder"]);
                      ("Posicion_2", [Text "Forward"]) ])
  /\ convertir_columnas_numericas_goalkeepers parse_digits tabla_jugadores "Competicion"
     = Some (mkFrame 1 [ ("Player", [Text "Pedri"]);
                         ("Competicion", [Text "La Liga"]);
                         ("Goles", [Num 4%Z]);
                         ("% Pases completados", [Num 88%Z]);
                         ("Posicion_principal", [NaN]);
                         ("Posicion_2", [NaN]) ]).
Proof.
  split; reflexivity.
Qed.

Lemma NoDup_names_tabla_jugadores : NoDup (names tabla_jugadores).
Proof.
  unfold names, tabla_jugadores. cbn [map cols fst].
  repeat (constructor; [intros H; repeat (destruct H as [H|H]; [discriminate H|]); exact H|]).
  constructor.
Defined.

Lemma convertir_columnas_numericas_coercion_witness :
  NoDup (names tabla_jugadores)
  /\ In "Competicion" (names tabla_jugadores)
  /\ exists porteros jugadores,
       convertir_columnas_numericas_goalkeepers parse_digits tabla_jugadores
         "Competicion" = Some porteros
       /\ convertir_columnas_numericas_jugadores parse_digits tabla_jugadores
            "Competicion" = Some jugadores
       /\ nrows porteros = 1 /\ nrows jugadores = 1.
Proof.
  assert (Hin : In "Competicion" (names tabla_jugadores)) by (right; left; reflexivity).
  split; [exact NoDup_names_tabla_jugadores|]. split; [exact Hin|].
  destruct (convertir_columnas_numericas_coercion Z parse_digits tabla_jugadores
              "Competicion" NoDup_names_tabla_jugadores Hin)
    as (i & porteros & jugadores & _ & H1 & H2 & H3 & H4 & _).
  exists porteros, jugadores. repeat split; assumption.
Defined.

(** ** Nationality *)

(** C8 does not hold as stated: a cell whose last character is a line
    feed does not end in a capital letter, yet the extraction returns the
    capitals that precede the line feed instead of a missing value. *)
Lemma extraer_nacionalidad_before_final_line_feed :
  ends_upper ("es ESP" ++ line_feed) = false
  /\ extraer_nacionalidad repr_int (Text ("es ESP" ++ line_feed)) = Text "ESP".
Proof.
  split; reflexivity.
Qed.

Lemma extraer_nacionalidad_trailing_token_witness :
  ends_upper "es " = false /\ "ESP" <> "" /\ all_upper "ESP" = true
  /\ extraer_nacionalidad repr_int (Text "es ESP") = Text "ESP".
Proof.
  assert (Hne : "ESP" <> "") by discriminate.
  split; [reflexivity|]. split; [exact Hne|]. split; [reflexivity|].
  exact (proj1 (proj1 (extraer_nacionalidad_trailing_token Z repr_int)
                  "es " "ESP" eq_refl Hne eq_refl)).
Defined.

(** ** Extraction *)

(** C9 does not hold on this page: the comment table has two header
    cells, so the insertion of ['Comp'] at position 4 raises after [df]
    has been assigned, and the handler returns that frame, neither
    reformatted nor cleaned, instead of [None]. *)
Theorem extract_tables_returns_unfinished_table :
  extract_tables 0%Z pagina_dos_columnas "La Liga" "2024-2025" "Standard Stats"
  = (Some (mkFrame 1 [ ("Player", [Text "Pedri"]); ("Squad", [Text "Barcelona"]) ]),
     Some url_la_liga)
  /\ finish_fallback "La Liga" "Standard Stats"
       (mkFrame 1 [ ("Player", [@Text Z "Pedri"]); ("Squad", [Text "Barcelona"]) ])
     = Handled (mkFrame 1 [ ("Player", [Text "Pedri"]); ("Squad", [Text "Barcelona"]) ]).
Proof.
  split; reflexivity.
Qed.




(* ================================================================== *)
(** * The further properties on the worked tables *)
(* ================================================================== *)

Definition ge_one_int (z : Z) : bool := (1 <=? z)%Z.

Lemma pagina_liga_aligned : aligned_web pagina_liga.
Proof.
  intros url tables t [= <-] [<-|[]]. repeat constructor.
Qed.

Lemma pagina_big5_aligned : aligned_web pagina_big5.
Proof.
  intros url tables t [= <-] [<-|[]]. repeat constructor.
Qed.

Lemma scrape_stats_player_injective_witness :
  scrape_stats_player "La Liga" "2024-2025" "Standard Stats" = Some url_la_liga
  /\ "La Liga" = "La Liga" /\ "2024-2025" = "2024-2025"
  /\ "Standard Stats" = "Standard Stats".
Proof.
  split; [reflexivity|].
  exact (scrape_stats_player_injective
           "La Liga" "2024-2025" "Standard Stats"
           "La Liga" "2024-2025" "Standard Stats" url_la_liga eq_refl eq_refl).
Defined.

Lemma clean_table_spec_witness :
  exists r, clean_table tabla_con_cabecera = Returned r
            /\ cols r = [ ("Player (Shooting)", [Text "Pedri"]) ]
            /\ nrows r = 1.
Proof.
  destruct (proj2 (clean_table_spec Z tabla_con_cabecera) _ _ eq_refl)
    as (r & H1 & H2 & H3 & _).
  exists r. split; [exact H1|]. split; [exact H2|exact H3].
Defined.

Lemma extract_tables_url_and_early_exit_witness :
  scrape_stats_player "La Liga" "2024-2025" "Standard Stats" = Some url_la_liga
  /\ read_html pagina_caida url_la_liga = None
  /\ extract_tables 0%Z pagina_caida "La Liga" "2024-2025" "Standard Stats"
     = (None, Some url_la_liga).
Proof.
  split; [reflexivity|]. split; [reflexivity|].
  exact (proj2 (proj2 (extract_tables_url_and_early_exit Z 0%Z pagina_caida
                         "La Liga" "2024-2025" "Standard Stats"))
           url_la_liga eq_refl eq_refl).
Defined.

Lemma extract_tables_big5_uses_first_table_witness :
  scrape_stats_player big5_league "2024-2025" "Playing Time"
  = Some url_big5_playing_time
  /\ extract_tables 0%Z pagina_big5 big5_league "2024-2025" "Playing Time"
     = (Some (mkFrame 3
                [ ("Player (Unnamed: 1_level_0 - Playing Time)",
                     [Text "Pedri"; Text "Gavi"; Text "Musiala"]);
                  ("MP (Playing Time - Playing Time)",
                     [Text "30"; Text "0"; Num 0%Z]) ]),
        Some url_big5_playing_time).
Proof.
  split; [reflexivity|].
  exact (extract_tables_big5_uses_first_table Z 0%Z pagina_big5
           "2024-2025" "Playing Time" url_big5_playing_time tabla_big5 []
           eq_refl eq_refl).
Defined.

Lemma extract_tables_well_formed_witness :
  exists df,
    fst (extract_tables 0%Z pagina_liga "La Liga" "2024-2025" "Standard Stats")
    = Some df
    /\ no_missing df /\ aligned df.
Proof.
  eexists. split; [reflexivity|].
  destruct (extract_tables_well_formed Z 0%Z pagina_liga
              "La Liga" "2024-2025" "Standard Stats" _ eq_refl) as [H1 H2].
  split; [exact H1|exact (H2 pagina_liga_aligned)].
Defined.

Lemma extraer_edad_spec_witness :
  occurs "-"%char "21" = false
  /\ extraer_edad repr_int (Text "21-200") = Text "21".
Proof.
  split; [reflexivity|].
  exact (proj1 (extraer_edad_spec Z repr_int) "21" "200" eq_refl).
Defined.

Lemma la_liga_is_a_name : "La Liga" <> "".
Proof.
  discriminate.
Qed.

Lemma extraer_competicion_spec_witness :
  any_space "1." = false /\ occurs newline "La Liga" = false
  /\ extraer_competicion repr_int (Text "1. La Liga") = Text "La Liga".
Proof.
  split; [reflexivity|]. split; [reflexivity|].
  exact (proj1 (extraer_competicion_spec Z repr_int) "1." "La Liga"
           eq_refl la_liga_is_a_name eq_refl).
Defined.

Lemma tabla_posiciones_no_new_labels :
  ~ In "Posicion_principal" (names tabla_posiciones)
  /\ ~ In "Posicion_2" (names tabla_posiciones).
Proof.
  split; intros H; repeat (destruct H as [H|H]; [discriminate H|]); exact H.
Qed.

Lemma tabla_posiciones_holds_texts :
  forall vals,
    first_column "Posicion" (cols tabla_posiciones) = Some vals ->
    vals = [] \/ exists s, In (@Text Z s) vals.
Proof.
  intros vals [= <-]. right. exists "DF". right. now left.
Qed.

Lemma procesar_posiciones_spec_witness :
  count_label "Posicion" tabla_posiciones = 1
  /\ exists vals,
       first_column "Posicion" (cols tabla_posiciones) = Some vals
       /\ option_map names (procesar_posiciones tabla_posiciones "Posicion")
          = Some ["Player"; "Posicion_principal"; "Posicion_2"].
Proof.
  split; [reflexivity|].
  destruct (proj2 (procesar_posiciones_spec Z tabla_posiciones "Posicion") eq_refl
              (proj1 tabla_posiciones_no_new_labels)
              (proj2 tabla_posiciones_no_new_labels)
              tabla_posiciones_holds_texts) as (vals & H1 & H2).
  exists vals. split; [exact H1|]. reflexivity.
Defined.

Lemma merge_frames_labels_witness :
  merge_frames parse_digits [tabla_corta; tabla_larga] = Some tabla_unida
  /\ NoDup (names tabla_unida).
Proof.
  split; [reflexivity|].
  exact (proj1 (merge_frames_labels Z parse_digits [tabla_corta; tabla_larga]
                  tabla_unida eq_refl)).
Defined.

Lemma merge_frames_types_witness :
  merge_frames parse_digits [tabla_corta; tabla_larga] = Some tabla_unida
  /\ exists concatenated,
       concat_axis1 [tabla_corta; tabla_larga] = Some concatenated
       /\ firstn 7 (cols tabla_unida)
          = firstn 7 (cols (drop_duplicated concatenated)).
Proof.
  split; [reflexivity|].
  exact (proj2 (merge_frames_types Z parse_digits [tabla_corta; tabla_larga]
                  tabla_unida eq_refl)).
Defined.


Lemma convertir_columnas_numericas_idempotent_witness :
  NoDup (names tabla_jugadores)
  /\ exists r,
       convertir_columnas_numericas_jugadores parse_digits tabla_jugadores
         "Competicion" = Some r
       /\ NoDup (names r)
       /\ convertir_columnas_numericas_jugadores parse_digits r "Competicion"
          = Some r.
Proof.
  split; [exact NoDup_names_tabla_jugadores|].
  eexists. split; [reflexivity|].
  exact (proj2 (proj2 (proj2
           (convertir_columnas_numericas_idempotent Z parse_digits
              tabla_jugadores "Competicion" NoDup_names_tabla_jugadores)))
           _ eq_refl).
Defined.

Lemma creacion_df_porteros_fbref_spec_witness :
  exists df,
    creacion_df_porteros_fbref 0%Z repr_int parse_digits pagina_liga "La Liga"
    = Some df
    /\ NoDup (names df) /\ aligned df.
Proof.
  destruct (creacion_df_porteros_fbref 0%Z repr_int parse_digits pagina_liga
              "La Liga") as [df|] eqn:E.
  - exists df. split; [reflexivity|].
    destruct (creacion_df_porteros_fbref_spec Z 0%Z repr_int parse_digits
                pagina_liga "La Liga" df pagina_liga_aligned E)
      as (_ & _ & H3 & H4).
    split; [exact H3|exact H4].
  - vm_compute in E. discriminate E.
Defined.

Lemma creacion_df_general_fbref_spec_witness :
  exists df,
    creacion_df_general_fbref 0%Z repr_int parse_digits ge_one_int pagina_big5
      "La Liga" = Some df
    /\ NoDup (names df) /\ aligned df.
Proof.
  destruct (creacion_df_general_fbref 0%Z repr_int parse_digits ge_one_int
              pagina_big5 "La Liga") as [df|] eqn:E.
  - exists df. split; [reflexivity|].
    destruct (creacion_df_general_fbref_spec Z 0%Z repr_int parse_digits
                ge_one_int pagina_big5 "La Liga" df pagina_big5_aligned E)
      as (_ & _ & H3 & H4).
    split; [exact H3|exact H4].
  - vm_compute in E. discriminate E.
Defined.
